(** * recollstatus.py: a shallow embedding and its verified properties

    The script reports the state of the [recollindex] daemon from the files
    it leaves in the recoll directory.  Python text is modelled as a list of
    Unicode code points, the ordered dictionary as an association list kept
    in insertion order, and the effects of the script (logging, temporary
    files, exceptions) by a state-and-exception monad over an explicit
    operating-system environment.  The script is read as a Python 3
    program (3.6 or later). *)

From Stdlib Require Import List NArith ZArith String Ascii Bool Lia.
Import ListNotations.

Set Implicit Arguments.

(** ** Python text *)

Definition pystr := list N.

(** An ASCII literal as Python text. *)
Definition str (s : string) : pystr :=
  map N_of_ascii (list_ascii_of_string s).
Arguments str s%_string.

Definition LF : N := 10.
Definition CR : N := 13.
Definition BACKSLASH : N := 92.
Definition EQUALS : N := 61.
Definition SPACE : N := 32.

Fixpoint pystr_eqb (a b : pystr) : bool :=
  match a, b with
  | [], [] => true
  | x :: a', y :: b' => N.eqb x y && pystr_eqb a' b'
  | _, _ => false
  end.

Definition in_range (lo hi c : N) : bool := N.leb lo c && N.leb c hi.

(** [str.isspace] on one code point: the characters [str.strip()] and
    [int()] discard. *)
Definition is_space (c : N) : bool :=
  in_range 9 13 c || in_range 28 32 c || N.eqb c 133 || N.eqb c 160
  || N.eqb c 5760 || in_range 8192 8202 c || N.eqb c 8232 || N.eqb c 8233
  || N.eqb c 8239 || N.eqb c 8287 || N.eqb c 12288.

(** The line boundaries of [str.splitlines]. *)
Definition is_linebreak (c : N) : bool :=
  in_range 10 13 c || in_range 28 30 c || N.eqb c 133
  || N.eqb c 8232 || N.eqb c 8233.

Fixpoint lstrip (s : pystr) : pystr :=
  match s with
  | [] => []
  | c :: r => if is_space c then lstrip r else s
  end.

Definition rstrip (s : pystr) : pystr := rev (lstrip (rev s)).

(** [s.strip()] *)
Definition strip (s : pystr) : pystr := rstrip (lstrip s).

Fixpoint is_prefix (p s : pystr) : bool :=
  match p, s with
  | [], _ => true
  | x :: p', y :: s' => N.eqb x y && is_prefix p' s'
  | _ :: _, [] => false
  end.

(** [s.replace(old, new)] for a non-empty [old]: occurrences are replaced
    from left to right without overlap; [skip] counts the characters of the
    occurrence just replaced that are still to be passed over. *)
Fixpoint replace_from (old new : pystr) (skip : nat) (s : pystr) : pystr :=
  match s with
  | [] => []
  | c :: r =>
      match skip with
      | S k => replace_from old new k r
      | O => if is_prefix old s
             then new ++ replace_from old new (List.length old - 1) r
             else c :: replace_from old new 0 r
      end
  end.

Definition replace (old new s : pystr) : pystr := replace_from old new 0 s.

(** [s.splitlines()]: [cur] is the line being read, most recent character
    first.  A carriage return directly followed by a line feed is one
    boundary, and no empty line is produced after the last boundary. *)
Fixpoint splitlines_from (cur : pystr) (s : pystr) : list pystr :=
  match s with
  | [] => match cur with [] => [] | _ :: _ => [rev cur] end
  | c :: r =>
      if is_linebreak c then
        rev cur ::
          match r with
          | d :: r' => if N.eqb c CR && N.eqb d LF
                       then splitlines_from [] r'
                       else splitlines_from [] r
          | [] => splitlines_from [] r
          end
      else splitlines_from (c :: cur) r
  end.

Definition splitlines (s : pystr) : list pystr := splitlines_from [] s.

(** [s.split(sep, 1)] for a one-character separator: one part when [sep]
    does not occur, otherwise the text before and after its first
    occurrence. *)
Fixpoint split_once (sep : N) (s : pystr) : list pystr :=
  match s with
  | [] => [[]]
  | c :: r =>
      if N.eqb c sep then [[]; r]
      else match split_once sep r with
           | h :: t => (c :: h) :: t
           | [] => [[c]]
           end
  end.

(** ['\n'.join(lines)] and friends. *)
Fixpoint join (sep : pystr) (parts : list pystr) : pystr :=
  match parts with
  | [] => []
  | [p] => p
  | p :: rest => p ++ sep ++ join sep rest
  end.

(** [posixpath.join(a, b)] *)
Definition path_join (a b : pystr) : pystr :=
  match b with
  | 47%N :: _ => b
  | _ => match rev a with
         | [] => b
         | 47%N :: _ => a ++ b
         | _ => a ++ [47%N] ++ b
         end
  end.

(** ** Python values and the ordered dictionary *)

Inductive pyval :=
| PyStr (s : pystr)
| PyInt (z : Z).

(** [a == b]: a string never equals an integer. *)
Definition py_eq (a b : pyval) : bool :=
  match a, b with
  | PyStr s, PyStr t => pystr_eqb s t
  | PyInt x, PyInt y => Z.eqb x y
  | _, _ => false
  end.

(** [x in l] for a list [l] *)
Definition py_in (x : pyval) (l : list pyval) : bool := existsb (py_eq x) l.

(** [collections.OrderedDict] with text keys: the pairs in insertion
    order. *)
Definition odict (V : Type) := list (pystr * V).

Section OrderedDict.
Variable V : Type.

Fixpoint od_get (k : pystr) (d : odict V) : option V :=
  match d with
  | [] => None
  | (k', v) :: r => if pystr_eqb k k' then Some v else od_get k r
  end.

(** [d[k] = v]: an existing key keeps its position. *)
Fixpoint od_set (k : pystr) (v : V) (d : odict V) : odict V :=
  match d with
  | [] => [(k, v)]
  | (k', v') :: r =>
      if pystr_eqb k k' then (k', v) :: r else (k', v') :: od_set k v r
  end.

(** [k in d] *)
Definition od_mem (k : pystr) (d : odict V) : bool :=
  match od_get k d with Some _ => true | None => false end.
End OrderedDict.

(** ** Exceptions, the environment and the effect monad *)

Inductive value_error :=
| Unpack (got : nat)         (* wrong number of values to unpack *)
| InvalidInt (s : pystr)     (* invalid literal for int() *)
| ClosedFile                 (* I/O operation on closed file *)
| OutOfRange.                (* year out of range *)

Inductive exn :=
| OSError (errno : Z)        (* IOError is the same class *)
| ValueError (why : value_error)
| KeyError (key : pystr)
| OverflowError
| UnboundLocalError (name : pystr)
| TypeError.                 (* a bytes-like object is required *)

Definition ENOENT : Z := 2.
Definition ESRCH : Z := 3.
Definition EACCES : Z := 13.
Definition EISDIR : Z := 21.

Inductive level := INFO | WARNING | ERROR.

(** What the script changes: the records handed to [logging] and the
    temporary files it has created, each with its name and content. *)
Record state := mkState {
  log : list (level * pystr);
  tmpfiles : list (pystr * pystr)
}.

Inductive node :=
| File (mtime : Z) (readable : bool) (content : pystr)
| Dir (mtime : Z).

(** The outcome of [os.kill(pid, 0)]. *)
Inductive probe :=
| Alive
| ProbeOSError (errno : Z)
| ProbeOverflow.

(** The outcome of [datetime.datetime.fromtimestamp(t)]: a local time, or
    one of the errors it raises for a time stamp out of range. *)
Inductive conversion :=
| Instant (d : Z)
| TsOverflow
| TsOSError (errno : Z)
| TsOutOfRange.

(** What the script observes.  [fs] holds the nodes a path leads to, and
    [absent_errno] the error of [open] on a path that leads to none (no
    such file, a component that is no directory, ...); [kill] is the
    process table; [clock n] is what the clock shows when it is read for
    the [n]-th time; [fromtimestamp] is the conversion of a time stamp to
    local time; [decimal] is the value of a decimal digit outside ASCII
    and [int_max_str_digits] the limit the interpreter puts on the digits
    of an integer literal ([0] for none); [tempdir] and [rand_suffix] say
    where and under which names temporary files appear. *)
Record env := mkEnv {
  fs : pystr -> option node;
  absent_errno : pystr -> Z;
  kill : Z -> probe;
  clock : nat -> Z;
  fromtimestamp : Z -> conversion;
  decimal : N -> option Z;
  int_max_str_digits : nat;
  tempdir : pystr;
  rand_suffix : nat -> pystr
}.

(** The whitespace [int()] skips around a literal: the ASCII whitespace of
    C and the Unicode whitespace outside ASCII. *)
Definition is_int_space (c : N) : bool :=
  in_range 9 13 c || N.eqb c 32 || (N.leb 128 c && is_space c).

Fixpoint drop_while (f : N -> bool) (s : pystr) : pystr :=
  match s with
  | [] => []
  | c :: r => if f c then drop_while f r else s
  end.

Definition int_strip (s : pystr) : pystr :=
  rev (drop_while is_int_space (rev (drop_while is_int_space s))).

(** The value of a decimal digit: an ASCII digit, or a decimal digit of
    another script. *)
Definition digit_val (e : env) (c : N) : option Z :=
  if N.ltb c 128
  then if in_range 48 57 c then Some (Z.of_N (c - 48)) else None
  else decimal e c.

(** The digits of a decimal literal with their number; single underscores
    may separate digits. *)
Fixpoint digits_from (e : env) (acc : Z) (count : nat)
    (after_underscore : bool) (s : pystr) : option (Z * nat) :=
  match s with
  | [] => if after_underscore then None else Some (acc, count)
  | c :: r =>
      if N.eqb c 95
      then if after_underscore then None
           else digits_from e acc count true r
      else match digit_val e c with
           | Some d => digits_from e (10 * acc + d) (S count) false r
           | None => None
           end
  end.

(** [int(s)] on text, [None] standing for [ValueError]: whitespace around
    the literal is skipped, one ASCII sign is allowed, the literal starts
    with a digit, and a literal of more than 640 digits is refused when it
    exceeds the limit of the interpreter. *)
Definition py_int (e : env) (s : pystr) : option Z :=
  let t := int_strip s in
  let '(negative, body) :=
    match t with
    | 43 :: r => (false, r)
    | 45 :: r => (true, r)
    | _ => (false, t)
    end%N in
  match body with
  | [] => None
  | c :: _ =>
      match digit_val e c with
      | None => None
      | Some _ =>
          match digits_from e 0 0 false body with
          | None => None
          | Some (n, count) =>
              if Nat.ltb 0 (int_max_str_digits e) && Nat.ltb 640 count
                 && Nat.ltb (int_max_str_digits e) count
              then None
              else Some (if negative then (- n)%Z else n)
          end
      end
  end.

Inductive result (A : Type) :=
| Ok (a : A)
| Raise (e : exn).
Arguments Ok {A} a.
Arguments Raise {A} e.

Definition M (A : Type) := state -> result A * state.

Definition ret {A} (a : A) : M A := fun st => (Ok a, st).
Definition raise {A} (e : exn) : M A := fun st => (Raise e, st).

Definition bind {A B} (m : M A) (f : A -> M B) : M B :=
  fun st =>
    match m st with
    | (Ok a, st') => f a st'
    | (Raise e, st') => (Raise e, st')
    end.

(** [try: m  except: h] *)
Definition catch {A} (m : M A) (h : exn -> M A) : M A :=
  fun st =>
    match m st with
    | (Ok a, st') => (Ok a, st')
    | (Raise e, st') => h e st'
    end.

Notation "x <- m ;; k" := (bind m (fun x => k))
  (at level 61, m at next level, right associativity).
Notation "' pat <- m ;; k" :=
  (bind m (fun x => match x with pat => k end))
  (at level 61, pat pattern, m at next level, right associativity).
Notation "m ;;; k" := (bind m (fun _ => k))
  (at level 61, right associativity).

Definition logging (lv : level) (msg : pystr) : M unit :=
  fun st => (Ok tt, mkState (log st ++ [(lv, msg)]) (tmpfiles st)).

(** An open (or closed) text file object. *)
Record file := mkFile {
  name : pystr;
  content : pystr;
  closed : bool
}.

Definition close (f : file) : file := mkFile (name f) (content f) true.

(** [open(path)] for reading. *)
Definition py_open (e : env) (path : pystr) : M file :=
  match fs e path with
  | None => raise (OSError (absent_errno e path))
  | Some (Dir _) => raise (OSError EISDIR)
  | Some (File _ false _) => raise (OSError EACCES)
  | Some (File _ true c) => ret (mkFile path c false)
  end.

(** [fp.read()] from the start of the file, and [fp.seek(0)]. *)
Definition read (f : file) : M pystr :=
  if closed f then raise (ValueError ClosedFile) else ret (content f).

Definition seek0 (f : file) : M unit :=
  if closed f then raise (ValueError ClosedFile) else ret tt.

(** [os.path.isfile] and [os.path.getmtime] *)
Definition isfile (e : env) (path : pystr) : bool :=
  match fs e path with
  | Some (File _ _ _) => true
  | _ => false
  end.

Definition getmtime (e : env) (path : pystr) : M Z :=
  match fs e path with
  | Some (File t _ _) => ret t
  | Some (Dir t) => ret t
  | None => raise (OSError (absent_errno e path))
  end.

(** [datetime.datetime.fromtimestamp(t)] *)
Definition datetime_fromtimestamp (e : env) (t : Z) : M Z :=
  match fromtimestamp e t with
  | Instant d => ret d
  | TsOverflow => raise OverflowError
  | TsOSError n => raise (OSError n)
  | TsOutOfRange => raise (ValueError OutOfRange)
  end.

(** [tempfile.NamedTemporaryFile(prefix=prefix, delete=False)]: a new empty
    file in the temporary directory, named by the prefix and a suffix the
    system chooses; the result is its index among the temporary files. *)
Definition tmp_name (e : env) (prefix : pystr) (n : nat) : pystr :=
  path_join (tempdir e) (prefix ++ rand_suffix e n).

Definition named_temporary_file (e : env) (prefix : pystr) : M nat :=
  fun st =>
    let n := List.length (tmpfiles st) in
    (Ok n, mkState (log st) (tmpfiles st ++ [(tmp_name e prefix n, [])])).

Fixpoint write_nth (n : nat) (data : pystr) (l : list (pystr * pystr))
  : list (pystr * pystr) :=
  match l, n with
  | [], _ => []
  | (nm, c) :: r, O => (nm, c ++ data) :: r
  | x :: r, S k => x :: write_nth k data r
  end.

(** What is handed to [write]: text or bytes. *)
Inductive pydata :=
| Text (s : pystr)
| Bytes (b : pystr).

(** [temp.file.write(data)]: the temporary file is a binary file, which
    takes bytes and refuses text. *)
Definition tmp_write (n : nat) (data : pydata) : M unit :=
  match data with
  | Bytes b =>
      fun st => (Ok tt, mkState (log st) (write_nth n b (tmpfiles st)))
  | Text _ => raise TypeError
  end.

(** ** The script *)

Definition od_lookup {V} (k : pystr) (d : odict V) : M V :=
  match od_get k d with
  | Some v => ret v
  | None => raise (KeyError k)
  end.

(** [int(s)] and [os.kill(pid, 0)] as computations. *)
Definition int_of (e : env) (s : pystr) : M Z :=
  match py_int e s with
  | Some z => ret z
  | None => raise (ValueError (InvalidInt s))
  end.

Definition os_kill0 (e : env) (pid : Z) : M unit :=
  match kill e pid with
  | Alive => ret tt
  | ProbeOSError n => raise (OSError n)
  | ProbeOverflow => raise OverflowError
  end.

Definition recollindex_running (e : env) (pid_filepath : pystr) : M bool :=
  pid_file <-
    catch (py_open e pid_filepath)
      (fun ex =>
         match ex with
         | OSError n =>
             (if Z.eqb n 2
              then logging ERROR
                     (str "Could not find 'index.pid' at " ++ pid_filepath
                        ++ [LF])
              else logging ERROR
                     (str "Could not open 'index.pid' at " ++ pid_filepath
                        ++ [LF])) ;;;
             raise ex
         | _ => raise ex
         end) ;;
  recoll_pid_string <- read pid_file ;;
  if pystr_eqb recoll_pid_string [] then ret false
  else
    recoll_pid <-
      catch (int_of e recoll_pid_string)
        (fun ex =>
           match ex with
           | ValueError _ =>
               logging ERROR
                 (str "Not a valid process ID: " ++ recoll_pid_string
                    ++ [LF]) ;;;
               raise ex
           | _ => raise ex
           end) ;;
    catch (os_kill0 e recoll_pid ;;; ret true)
      (fun ex =>
         match ex with
         | OSError n =>
             if Z.eqb n ESRCH
             then logging WARNING
                    (pid_filepath ++ str " has process ID "
                       ++ recoll_pid_string
                       ++ str ", but no process with that ID is running."
                       ++ [LF]) ;;;
                  ret false
             else raise ex
         | _ => raise ex
         end).

(** The three functions that read the clock take the number of readings
    made so far and return it increased by one.  [latest_query] reads the
    clock before it looks at the file. *)
Definition latest_query (e : env) (history_path : pystr) (ticks : nat)
  : M (option Z * Z * nat) :=
  let now := clock e ticks in
  if isfile e history_path
  then history_timestamp <- getmtime e history_path ;;
       date_last_query <- datetime_fromtimestamp e history_timestamp ;;
       ret (Some date_last_query, now, S ticks)
  else ret (None, now, S ticks).

(** When the path is no regular file the local variable returned first was
    never assigned. *)
Definition running_time (e : env) (flintlock_path : pystr) (ticks : nat)
  : M (Z * Z * nat) :=
  if isfile e flintlock_path
  then flintflock_timestamp <- getmtime e flintlock_path ;;
       let now := clock e ticks in
       date_recollindex_started <-
         datetime_fromtimestamp e flintflock_timestamp ;;
       ret (date_recollindex_started, now, S ticks)
  else raise (UnboundLocalError (str "date_recollindex_started")).

Definition since_last_run (e : env) (idxstatus_path : pystr) (ticks : nat)
  : M (Z * Z * nat) :=
  if isfile e idxstatus_path
  then idxstatus_timestamp <- getmtime e idxstatus_path ;;
       let now := clock e ticks in
       date_recollindex_last_started <-
         datetime_fromtimestamp e idxstatus_timestamp ;;
       ret (date_recollindex_last_started, now, S ticks)
  else raise (UnboundLocalError (str "date_recollindex_last_started")).

Definition write_tempfile (e : env) (fp : file) (prefix : pystr) : M unit :=
  temp <- named_temporary_file e prefix ;;
  logging INFO
    (str "Copying " ++ name fp ++ str " to " ++ tmp_name e prefix temp
       ++ [LF]) ;;;
  seek0 fp ;;;
  data <- read fp ;;
  tmp_write temp (Text data).

(** [key, val = parts] *)
Definition unpack2 (parts : list pystr) : M (pystr * pystr) :=
  match parts with
  | [k; v] => ret (k, v)
  | _ => raise (ValueError (Unpack (List.length parts)))
  end.

(** The loop over the logical lines; [idxstatus_fp] is the file object the
    [with] block has left behind. *)
Fixpoint parse_lines (e : env) (idxstatus_fp : file) (write_tempfiles : bool)
    (lines : list pystr) (idxstatus : odict pystr) : M (odict pystr) :=
  match lines with
  | [] => ret idxstatus
  | line :: rest =>
      kv <-
        catch (unpack2 (map strip (split_once EQUALS line)))
          (fun ex =>
             match ex with
             | ValueError _ =>
                 logging ERROR (str "Cannot parse line: " ++ line ++ [LF]) ;;;
                 (if write_tempfiles
                  then write_tempfile e idxstatus_fp (str "idxstatus")
                  else ret tt) ;;;
                 raise ex
             | _ => raise ex
             end) ;;
      parse_lines e idxstatus_fp write_tempfiles rest
        (od_set (fst kv) (snd kv) idxstatus)
  end.

(** The text of the file with every backslash-newline removed, cut into
    lines. *)
Definition logical_lines (text : pystr) : list pystr :=
  splitlines (replace [BACKSLASH; LF] [] text).

Definition parse_idxstatus (e : env) (idxstatus_path : pystr)
    (write_tempfiles : bool) : M (odict pystr) :=
  fp <- py_open e idxstatus_path ;;
  text <- read fp ;;
  let idxstatus_fp := close fp in
  idxstatus <-
    parse_lines e idxstatus_fp write_tempfiles (logical_lines text) [] ;;
  phase <- od_lookup (str "phase") idxstatus ;;
  (if py_in (PyStr phase) [PyInt 0; PyInt 4; PyInt 5]
   then write_tempfile e idxstatus_fp (str "idxstatus")
   else ret tt) ;;;
  ret idxstatus.

Definition DbIxStatus : odict pystr :=
  [ (str "0", str "DBIXS_NONE");
    (str "1", str "DBIXS_FILES");
    (str "2", str "DBIXS_PURGE");
    (str "3", str "DBIXS_STEMDB");
    (str "4", str "DBIXS_CLOSING");
    (str "5", str "DBIXS_MONITOR");
    (str "6", str "DBIXS_DONE") ].

Definition descriptors : odict pystr :=
  od_set (str "dbtotdocs") (str "Starting number of indexed documents:")
    (od_set (str "totfiles") (str "Total files in index:")
       (od_set (str "filerrors") (str "Failed files:")
          (od_set (str "filesdone") (str "Files tested:")
             (od_set (str "docsdone") (str "Documents updated:") [])))).

(** [for field, description in descriptors.items(): ...] *)
Fixpoint append_fields (idxstatus : odict pystr) (items : odict pystr)
    (formatted : list pystr) : M (list pystr) :=
  match items with
  | [] => ret formatted
  | (field, description) :: rest =>
      if od_mem field idxstatus
      then v <- od_lookup field idxstatus ;;
           append_fields idxstatus rest
             (formatted ++ [description ++ [SPACE] ++ v])
      else append_fields idxstatus rest formatted
  end.

(** The list [formatted] when [format_idxstatus] reaches its [return]. *)
Definition format_lines (idxstatus : odict pystr) : M (list pystr) :=
  phase <- od_lookup (str "phase") idxstatus ;;
  phase_name <- od_lookup phase DbIxStatus ;;
  let formatted := [str "DbIxStatus is " ++ phase ++ str ": " ++ phase_name] in
  formatted <- append_fields idxstatus descriptors formatted ;;
  phase <- od_lookup (str "phase") idxstatus ;;
  if pystr_eqb phase (str "1")
  then fn <- od_lookup (str "fn") idxstatus ;;
       ret (formatted ++ [str "Indexing this file: " ++ fn])
  else ret (formatted ++ [str "Not indexing files now."]).

Definition format_idxstatus (idxstatus : odict pystr) : M pystr :=
  formatted <- format_lines idxstatus ;;
  ret (join [LF] formatted).

Section Report.
(** [str] of the difference of two instants, and [datetime.ctime]. *)
Variable str_timedelta : Z -> pystr.
Variable ctime : Z -> pystr.

(** [ticks] is the number of clock readings made before the call. *)
Definition recollstatus (e : env) (recoll_dir : pystr) (ticks : nat)
  : M pystr :=
  running <- recollindex_running e (path_join recoll_dir (str "index.pid")) ;;
  '(status, ticks) <-
    (if running : bool
     then
       let status := [str "recollindex is running"] in
       '(recollindex_start, then_, ticks) <-
         running_time e
           (path_join (path_join recoll_dir (str "xapiandb"))
              (str "flintlock")) ticks ;;
       let recollindex_elapsed_time := (then_ - recollindex_start)%Z in
       let status :=
         status ++ [str " recollindex has been running for "
                      ++ str_timedelta recollindex_elapsed_time] in
       idxstatus <-
         parse_idxstatus e (path_join recoll_dir (str "idxstatus.txt"))
           true ;;
       report <- format_idxstatus idxstatus ;;
       ret (status ++ [report], ticks)
     else
       let status := [str "recollindex is not running"] in
       '(recollindex_last_started, then_, ticks) <-
         since_last_run e (path_join recoll_dir (str "idxstatus.txt"))
           ticks ;;
       let time_since_last_index :=
         (then_ - recollindex_last_started)%Z in
       let status :=
         status ++ [str " recollindex was last started on "
                      ++ ctime recollindex_last_started] in
       ret (status ++ [str " time since recollindex last started: "
                         ++ str_timedelta time_since_last_index],
            ticks)) ;;
  '(date_of_last_query, date_now, _) <-
    latest_query e (path_join recoll_dir (str "history")) ticks ;;
  match date_of_last_query with
  | Some t =>
      let duration_since_last_query := (date_now - t)%Z in
      ret (join [LF]
             (status
                ++ [str "recoll database last queried on: " ++ ctime t]
                ++ [str " which was "
                      ++ str_timedelta duration_since_last_query
                      ++ str " ago."]))
  | None => ret (join [LF] status)
  end.
End Report.

(** ** Notions of the specification *)

(** The line shown for an optional field, if the field is present. *)
Definition field_line (idxstatus : odict pystr) (field description : pystr)
  : list pystr :=
  match od_get field idxstatus with
  | Some v => [description ++ [SPACE] ++ v]
  | None => []
  end.

(** The optional lines in the order of the specification. *)
Definition optional_lines (idxstatus : odict pystr) : list pystr :=
  field_line idxstatus (str "docsdone") (str "Documents updated:")
  ++ field_line idxstatus (str "filesdone") (str "Files tested:")
  ++ field_line idxstatus (str "filerrors") (str "Failed files:")
  ++ field_line idxstatus (str "totfiles") (str "Total files in index:")
  ++ field_line idxstatus (str "dbtotdocs")
       (str "Starting number of indexed documents:").

Definition header_line (phase phase_name : pystr) : pystr :=
  str "DbIxStatus is " ++ phase ++ str ": " ++ phase_name.

(** The phase table of the specification. *)
Definition phase_table : list (pystr * pystr) :=
  [ (str "0", str "DBIXS_NONE"); (str "1", str "DBIXS_FILES");
    (str "2", str "DBIXS_PURGE"); (str "3", str "DBIXS_STEMDB");
    (str "4", str "DBIXS_CLOSING"); (str "5", str "DBIXS_MONITOR");
    (str "6", str "DBIXS_DONE") ].

(** The formatter succeeds exactly on the mappings whose phase is in the
    table and which name a file when the phase is ["1"]. *)
Definition formattable (idxstatus : odict pystr) : Prop :=
  exists p n,
    od_get (str "phase") idxstatus = Some p
    /\ od_get p DbIxStatus = Some n
    /\ (p = str "1" -> od_mem (str "fn") idxstatus = true).

(** A logical line is malformed when splitting it at the first [=] does
    not give exactly two parts. *)
Definition malformedb (line : pystr) : bool :=
  negb (Nat.eqb (List.length (split_once EQUALS line)) 2).

Definition malformed (line : pystr) : Prop := malformedb line = true.

(** The key and the value a well-formed line assigns. *)
Definition key_of (line : pystr) : pystr :=
  strip (nth 0 (split_once EQUALS line) []).

Definition val_of (line : pystr) : pystr :=
  strip (nth 1 (split_once EQUALS line) []).

(** The mapping the loop builds from well-formed lines. *)
Definition assign_all (lines : list pystr) (d : odict pystr) : odict pystr :=
  fold_left (fun d line => od_set (key_of line) (val_of line) d) lines d.

(** Text free of surrounding whitespace. *)
Definition trimmed (s : pystr) : Prop :=
  (forall c r, s = c :: r -> is_space c = false)
  /\ (forall c r, s = r ++ [c] -> is_space c = false).

(** A physical line holds no line boundary. *)
Definition no_break (l : pystr) : Prop :=
  forall c, In c l -> is_linebreak c = false.

(** A file given by its physical lines, each ended by a line feed. *)
Definition text_of_lines (ls : list pystr) : pystr :=
  List.concat (map (fun l => l ++ [LF]) ls).

(** A physical line without its final backslash, if it has one. *)
Fixpoint chop_backslash (l : pystr) : option pystr :=
  match l with
  | [] => None
  | [c] => if N.eqb c BACKSLASH then Some [] else None
  | c :: r => option_map (cons c) (chop_backslash r)
  end.

(** [p] put in front of the first of the lines [ls]; when nothing follows,
    [p] is a line of its own, unless it is empty. *)
Definition glue (p : pystr) (ls : list pystr) : list pystr :=
  match ls with
  | [] => match p with [] => [] | _ :: _ => [p] end
  | x :: xs => (p ++ x) :: xs
  end.

(** The physical lines of a text: the pieces between its line feeds. *)
Fixpoint split_lf (s : pystr) : list pystr :=
  match s with
  | [] => [[]]
  | c :: r =>
      if N.eqb c LF then [] :: split_lf r
      else match split_lf r with
           | h :: t => (c :: h) :: t
           | [] => [[c]]
           end
  end.

(** Continuation joining as the specification words it, on the text: a
    physical line ending in a backslash loses the backslash and is
    followed at once by the next physical line; any other line is
    followed by a line feed and the next line. *)
Fixpoint unwrap (ls : list pystr) : pystr :=
  match ls with
  | [] => []
  | l :: rest =>
      match rest with
      | [] => l
      | _ :: _ =>
          match chop_backslash l with
          | Some l0 => l0 ++ unwrap rest
          | None => l ++ [LF] ++ unwrap rest
          end
      end
  end.

(** The same on the lines: the logical lines of the physical lines [ls],
    each ended by a line feed, followed by the text [last] without a
    final line feed. *)
Fixpoint joined (ls : list pystr) (last : pystr) : list pystr :=
  match ls with
  | [] => glue last []
  | l :: rest =>
      match chop_backslash l with
      | Some l0 => glue l0 (joined rest last)
      | None => l :: joined rest last
      end
  end.

(** Text made of whitespace only. *)
Definition all_space (s : pystr) : Prop := Forall (fun c => is_space c = true) s.

(** [t] is [s] without the whitespace around it. *)
Definition stripped_of (s t : pystr) : Prop :=
  exists pre post,
    s = pre ++ t ++ post /\ all_space pre /\ all_space post /\ trimmed t.

(** The state a failed parse leaves behind: the error record naming the
    line and, when a copy was asked for, the record of the copy and the
    temporary file created for it, still empty. *)
Definition state_after_failure (e : env) (path : pystr)
    (write_tempfiles : bool) (line : pystr) (st : state) : state :=
  let logged :=
    mkState (log st ++ [(ERROR, str "Cannot parse line: " ++ line ++ [LF])])
      (tmpfiles st) in
  if write_tempfiles
  then
    let n := List.length (tmpfiles st) in
    mkState
      (log logged
         ++ [(INFO, str "Copying " ++ path ++ str " to "
                      ++ tmp_name e (str "idxstatus") n ++ [LF])])
      (tmpfiles st ++ [(tmp_name e (str "idxstatus") n, [])])
  else logged.

(** The warning about a stale pid file. *)
Definition stale_pid_warning (pid_filepath content : pystr) : level * pystr :=
  (WARNING,
   pid_filepath ++ str " has process ID " ++ content
     ++ str ", but no process with that ID is running." ++ [LF]).

Definition add_log (entry : level * pystr) (st : state) : state :=
  mkState (log st ++ [entry]) (tmpfiles st).

(** ** Further notions used by the properties of the whole script *)


(** The value the last line assigning [k] gives it, if a line does. *)
Definition last_val (k : pystr) (lines : list pystr) : option pystr :=
  fold_left
    (fun acc l => if pystr_eqb k (key_of l) then Some (val_of l) else acc)
    lines None.

(** The keys in the order of their first occurrence. *)
Definition first_occurrences (keys : list pystr) : list pystr :=
  fold_left
    (fun acc k => if existsb (pystr_eqb k) acc then acc else acc ++ [k])
    keys [].

(** The keys the formatter reads. *)
Definition shown_keys : list pystr :=
  [str "phase"; str "docsdone"; str "filesdone"; str "filerrors";
   str "totfiles"; str "dbtotdocs"; str "fn"].

(** The lines about the last query when the clock is read for the
    [ticks]-th time: two lines when there is a history file, none when
    there is not, and the error of the conversion of its time stamp. *)
Definition query_lines (str_timedelta ctime : Z -> pystr) (e : env)
    (recoll_dir : pystr) (ticks : nat) : result (list pystr) :=
  match fs e (path_join recoll_dir (str "history")) with
  | Some (File t _ _) =>
      match fromtimestamp e t with
      | Instant d =>
          Ok [str "recoll database last queried on: " ++ ctime d;
              str " which was " ++ str_timedelta (clock e ticks - d)%Z
                ++ str " ago."]
      | TsOverflow => Raise OverflowError
      | TsOSError n => Raise (OSError n)
      | TsOutOfRange => Raise (ValueError OutOfRange)
      end
  | _ => Ok []
  end.

(** A key and a value as the parser stores them. *)
Definition clean_key (k : pystr) : Prop :=
  trimmed k /\ ~ In EQUALS k /\ no_break k.

Definition clean_val (v : pystr) : Prop := trimmed v /\ no_break v.

(** ** Sample environments *)

(** A file system given by the list of its entries. *)
Definition fs_of (files : list (pystr * node)) (path : pystr) : option node :=
  od_get path files.

(** A file system of the given files on a machine with the given process
    table: a path to no node is reported as missing, the clock advances
    by ten at each reading, time stamps are local times as they are,
    there are no digits outside ASCII, and an integer literal may have
    4300 digits. *)
Definition machine (files : list (pystr * node)) (k : Z -> probe) : env :=
  mkEnv (fs_of files) (fun _ => ENOENT) k
    (fun n => (100 + 10 * Z.of_nat n)%Z) Instant (fun _ => None) 4300
    (str "/tmp") (fun _ => str "k3x9").

(** A machine whose only file is a progress file with the given text, and
    on which no probed process exists. *)
Definition progress_only (text : pystr) : env :=
  machine [(str "/r/idxstatus.txt", File 0 true text)]
    (fun _ => ProbeOSError ESRCH).

(** Nothing logged and no temporary file yet. *)
Definition idle : state := mkState [] [].

(** * Properties *)

(** ** Text and dictionary lemmas *)

Lemma pystr_eqb_refl (a : pystr) : pystr_eqb a a = true.
Proof.
  induction a as [|x a IH]; simpl; [reflexivity|].
  now rewrite N.eqb_refl, IH.
Qed.

Lemma pystr_eqb_eq (a b : pystr) : pystr_eqb a b = true <-> a = b.
Proof.
  split; [|intros ->; apply pystr_eqb_refl].
  revert b; induction a as [|x a IH]; intros [|y b]; simpl;
    try discriminate; [reflexivity|].
  intros H; apply andb_true_iff in H as [Hx Hab].
  apply N.eqb_eq in Hx; subst y.
  now rewrite (IH _ Hab).
Qed.

Lemma pystr_eqb_neq (a b : pystr) : pystr_eqb a b = false <-> a <> b.
Proof.
  split.
  - intros H E; subst b; rewrite pystr_eqb_refl in H; discriminate.
  - intros H; destruct (pystr_eqb a b) eqn:E; [|reflexivity].
    apply pystr_eqb_eq in E; contradiction.
Qed.

Lemma join_cons2 (sep h x : pystr) (r : list pystr) :
  join sep (h :: x :: r) = h ++ sep ++ join sep (x :: r).
Proof. reflexivity. Qed.

Lemma od_mem_get {V} (k : pystr) (d : odict V) :
  od_mem k d = true <-> exists v, od_get k d = Some v.
Proof.
  unfold od_mem; destruct (od_get k d) as [v|]; split.
  - intros _; now exists v.
  - reflexivity.
  - discriminate.
  - intros [v H]; discriminate.
Qed.

Lemma od_get_set_same {V} (k : pystr) (v : V) (d : odict V) :
  od_get k (od_set k v d) = Some v.
Proof.
  induction d as [|[k' v'] d IH]; simpl.
  - now rewrite pystr_eqb_refl.
  - destruct (pystr_eqb k k') eqn:E; simpl; now rewrite E.
Qed.

Lemma od_get_set_other {V} (k k0 : pystr) (v : V) (d : odict V) :
  k0 <> k -> od_get k0 (od_set k v d) = od_get k0 d.
Proof.
  intros Hne; induction d as [|[k' v'] d IH]; simpl.
  - apply pystr_eqb_neq in Hne; now rewrite Hne.
  - destruct (pystr_eqb k k') eqn:E; simpl.
    + apply pystr_eqb_eq in E; subst k'.
      apply pystr_eqb_neq in Hne; now rewrite Hne.
    + now rewrite IH.
Qed.

(** ** The formatter *)

Lemma append_fields_spec (idxstatus items : odict pystr)
    (formatted : list pystr) (st : state) :
  append_fields idxstatus items formatted st =
    (Ok (formatted
           ++ flat_map (fun fd => field_line idxstatus (fst fd) (snd fd))
                items), st).
Proof.
  revert formatted; induction items as [|[f d] items IH]; intros formatted.
  - simpl; now rewrite app_nil_r.
  - simpl. unfold od_mem, field_line, od_lookup, bind, ret.
    destruct (od_get f idxstatus) as [v|]; simpl.
    + rewrite IH, <- app_assoc; reflexivity.
    + apply IH.
Qed.

Lemma append_fields_descriptors (idxstatus : odict pystr)
    (formatted : list pystr) (st : state) :
  append_fields idxstatus descriptors formatted st =
    (Ok (formatted ++ optional_lines idxstatus), st).
Proof.
  rewrite append_fields_spec.
  change descriptors with
    [ (str "docsdone", str "Documents updated:");
      (str "filesdone", str "Files tested:");
      (str "filerrors", str "Failed files:");
      (str "totfiles", str "Total files in index:");
      (str "dbtotdocs", str "Starting number of indexed documents:") ].
  unfold optional_lines, flat_map, fst, snd.
  now rewrite app_nil_r.
Qed.

Lemma phase_table_get (p n : pystr) :
  In (p, n) phase_table -> od_get p DbIxStatus = Some n.
Proof.
  unfold phase_table; simpl.
  intros H; repeat (destruct H as [H|H]; [inversion H; reflexivity|]).
  contradiction.
Qed.

Lemma phase_table_miss (p : pystr) :
  ~ In p (map fst phase_table) -> od_get p DbIxStatus = None.
Proof.
  unfold phase_table; simpl map; intros H.
  unfold DbIxStatus, od_get.
  repeat match goal with
  | |- context [pystr_eqb p ?k] =>
      let E := fresh "E" in
      destruct (pystr_eqb p k) eqn:E;
        [apply pystr_eqb_eq in E; exfalso; apply H; simpl; rewrite E; tauto|]
  end.
  reflexivity.
Qed.

Lemma format_lines_run (idxstatus : odict pystr) (p n : pystr) (st : state) :
  od_get (str "phase") idxstatus = Some p ->
  od_get p DbIxStatus = Some n ->
  format_lines idxstatus st =
    (if pystr_eqb p (str "1")
     then match od_get (str "fn") idxstatus with
          | Some fn =>
              (Ok ((header_line p n :: optional_lines idxstatus)
                     ++ [str "Indexing this file: " ++ fn]), st)
          | None => (Raise (KeyError (str "fn")), st)
          end
     else (Ok ((header_line p n :: optional_lines idxstatus)
                 ++ [str "Not indexing files now."]), st)).
Proof.
  intros Hp Hn. unfold format_lines, bind, od_lookup.
  rewrite Hp; unfold ret at 1 2. rewrite Hn; unfold ret at 1.
  rewrite append_fields_descriptors.
  destruct (pystr_eqb p (str "1")); [|reflexivity].
  destruct (od_get (str "fn") idxstatus); reflexivity.
Qed.

Lemma formattable_iff (idxstatus : odict pystr) (st : state) :
  formattable idxstatus <->
  exists out, format_idxstatus idxstatus st = (Ok out, st).
Proof.
  split.
  - intros (p & n & Hp & Hn & Hfn).
    unfold format_idxstatus, bind. rewrite (format_lines_run _ st Hp Hn).
    destruct (pystr_eqb p (str "1")) eqn:E.
    + apply pystr_eqb_eq in E. apply Hfn, od_mem_get in E as [fn Hget].
      rewrite Hget. eexists; reflexivity.
    + eexists; reflexivity.
  - intros [out H]. unfold format_idxstatus, bind in H.
    destruct (od_get (str "phase") idxstatus) as [p|] eqn:Hp.
    2:{ unfold format_lines, bind, od_lookup in H. rewrite Hp in H.
        discriminate. }
    destruct (od_get p DbIxStatus) as [n|] eqn:Hn.
    2:{ unfold format_lines, bind, od_lookup in H. rewrite Hp in H.
        unfold ret at 1 in H. rewrite Hn in H. discriminate. }
    exists p, n; repeat split; trivial.
    intros ->. rewrite (format_lines_run _ st Hp Hn) in H. simpl in H.
    unfold od_mem. destruct (od_get (str "fn") idxstatus); [reflexivity|].
    discriminate.
Qed.

(** C1 (as stated, refuted): the mapping [{phase: "1"}] has a phase of the
    table, yet the formatter produces no header line for it: the lookup of
    [fn] raises [KeyError]. *)
Lemma format_idxstatus_phase1_without_fn :
  od_get (str "phase") [(str "phase", str "1")] = Some (str "1")
  /\ In (str "1", str "DBIXS_FILES") phase_table
  /\ format_idxstatus [(str "phase", str "1")] (mkState [] [])
     = (Raise (KeyError (str "fn")), mkState [] []).
Proof.
  split; [reflexivity|]. split; [simpl; tauto|]. reflexivity.
Qed.

(** C1 (amended): for a mapping whose phase is one of the seven codes of
    the table and which, when the phase is ["1"], also has the key [fn],
    the formatter's output starts with the line
    [DbIxStatus is <phase>: <PHASE_NAME>]; for a phase outside the table
    the formatter fails with the key error on that phase. *)
Theorem format_idxstatus_header
    (idxstatus : odict pystr) (p : pystr) (st : state) :
  od_get (str "phase") idxstatus = Some p ->
  (forall n,
      In (p, n) phase_table ->
      (p = str "1" -> od_mem (str "fn") idxstatus = true) ->
      exists rest,
        format_idxstatus idxstatus st
        = (Ok (header_line p n ++ [LF] ++ rest), st))
  /\ (~ In p (map fst phase_table) ->
      format_idxstatus idxstatus st = (Raise (KeyError p), st)).
Proof.
  intros Hp; split.
  - intros n Hin Hfn. apply phase_table_get in Hin.
    unfold format_idxstatus, bind. rewrite (format_lines_run _ st Hp Hin).
    destruct (pystr_eqb p (str "1")) eqn:E.
    + apply pystr_eqb_eq in E. apply Hfn, od_mem_get in E as [fn Hget].
      rewrite Hget. unfold ret.
      destruct (optional_lines idxstatus) as [|x r]; simpl app at 1;
        rewrite join_cons2; eexists; reflexivity.
    + unfold ret.
      destruct (optional_lines idxstatus) as [|x r]; simpl app at 1;
        rewrite join_cons2; eexists; reflexivity.
  - intros Hout. apply phase_table_miss in Hout.
    unfold format_idxstatus, format_lines, bind, od_lookup.
    rewrite Hp; unfold ret at 1. now rewrite Hout.
Qed.

Lemma format_idxstatus_header_witness :
  (exists rest,
      format_idxstatus [(str "phase", str "6"); (str "totfiles", str "500")]
        (mkState [] [])
      = (Ok (header_line (str "6") (str "DBIXS_DONE") ++ [LF] ++ rest),
         mkState [] []))
  /\ format_idxstatus [(str "phase", str "7")] (mkState [] [])
     = (Raise (KeyError (str "7")), mkState [] []).
Proof.
  split.
  - apply (format_idxstatus_header
             [(str "phase", str "6"); (str "totfiles", str "500")]
             (mkState [] []) (p := str "6")); [reflexivity| |discriminate].
    simpl; tauto.
  - apply (format_idxstatus_header [(str "phase", str "7")]
             (mkState [] []) (p := str "7")); [reflexivity|].
    simpl. intros H.
    repeat (destruct H as [H|H]; [discriminate H|]). exact H.
Defined.

(** C6: on a mapping the formatter accepts, the lines after the header are
    the lines [<description> <value>] of the fields [docsdone],
    [filesdone], [filerrors], [totfiles], [dbtotdocs] that are present, in
    this order and with nothing for an absent field, followed by one last
    line: [Indexing this file: <fn>] when the phase is ["1"] and
    [Not indexing files now.] otherwise. *)
Theorem format_idxstatus_lines
    (idxstatus : odict pystr) (p n : pystr) (st : state) :
  od_get (str "phase") idxstatus = Some p ->
  od_get p DbIxStatus = Some n ->
  (p = str "1" -> od_mem (str "fn") idxstatus = true) ->
  exists final,
    format_lines idxstatus st
    = (Ok (header_line p n :: optional_lines idxstatus ++ [final]), st)
    /\ format_idxstatus idxstatus st
       = (Ok (join [LF]
                (header_line p n :: optional_lines idxstatus ++ [final])),
          st)
    /\ (p = str "1" ->
        exists fn,
          od_get (str "fn") idxstatus = Some fn
          /\ final = str "Indexing this file: " ++ fn)
    /\ (p <> str "1" -> final = str "Not indexing files now.").
Proof.
  intros Hp Hn Hfn.
  unfold format_idxstatus, bind. rewrite (format_lines_run _ st Hp Hn).
  destruct (pystr_eqb p (str "1")) eqn:E.
  - apply pystr_eqb_eq in E. destruct (proj1 (od_mem_get _ _) (Hfn E)) as [fn Hget].
    rewrite Hget. exists (str "Indexing this file: " ++ fn).
    repeat split; trivial.
    + intros _; now exists fn.
    + intros Hne; contradiction.
  - apply pystr_eqb_neq in E. exists (str "Not indexing files now.").
    repeat split; trivial. intros Heq; contradiction.
Qed.

Lemma format_idxstatus_lines_witness :
  exists final,
    format_lines
      [(str "phase", str "1"); (str "fn", str "/tmp/x.txt");
       (str "totfiles", str "5"); (str "docsdone", str "7")]
      (mkState [] [])
    = (Ok (header_line (str "1") (str "DBIXS_FILES")
             :: [str "Documents updated: 7"; str "Total files in index: 5"]
             ++ [final]), mkState [] [])
    /\ final = str "Indexing this file: /tmp/x.txt".
Proof.
  destruct (format_idxstatus_lines
              [(str "phase", str "1"); (str "fn", str "/tmp/x.txt");
               (str "totfiles", str "5"); (str "docsdone", str "7")]
              (p := str "1") (n := str "DBIXS_FILES") (mkState [] [])
              eq_refl eq_refl (fun _ => eq_refl))
    as (final & Hlines & _ & Hone & _).
  exists final; split; [exact Hlines|].
  destruct (Hone eq_refl) as (fn & Hget & ->).
  injection Hget as <-. reflexivity.
Defined.

Unset Implicit Arguments.

(** ** The parser: splitting a line *)

Lemma split_once_none (sep : N) (s : pystr) :
  ~ In sep s -> split_once sep s = [s].
Proof.
  induction s as [|c r IH]; intros H; simpl; [reflexivity|].
  destruct (N.eqb c sep) eqn:E.
  - apply N.eqb_eq in E; subst c. exfalso; apply H; now left.
  - rewrite IH; [reflexivity|]. intros Hin; apply H; now right.
Qed.

Lemma split_once_some (sep : N) (a b : pystr) :
  ~ In sep a -> split_once sep (a ++ sep :: b) = [a; b].
Proof.
  induction a as [|c r IH]; intros H; simpl.
  - now rewrite N.eqb_refl.
  - destruct (N.eqb c sep) eqn:E.
    + apply N.eqb_eq in E; subst c. exfalso; apply H; now left.
    + rewrite IH; [reflexivity|]. intros Hin; apply H; now right.
Qed.

Lemma first_occurrence (sep : N) (s : pystr) :
  In sep s -> exists a b, s = a ++ sep :: b /\ ~ In sep a.
Proof.
  induction s as [|c r IH]; intros H; [destruct H|].
  destruct (N.eq_dec c sep) as [->|Hne].
  - exists [], r; split; [reflexivity|]. intros [].
  - destruct H as [H|H]; [contradiction|].
    destruct (IH H) as (a & b & -> & Ha).
    exists (c :: a), b; split; [reflexivity|].
    intros [Hc|Hin]; [now apply Hne|now apply Ha].
Qed.

Lemma malformed_iff (line : pystr) : malformed line <-> ~ In EQUALS line.
Proof.
  unfold malformed, malformedb; split.
  - intros H Hin. apply first_occurrence in Hin as (a & b & -> & Ha).
    rewrite (split_once_some _ _ b Ha) in H. discriminate.
  - intros H. now rewrite (split_once_none _ _ H).
Qed.

Lemma wellformed_split (line : pystr) :
  malformedb line = false ->
  exists a b,
    line = a ++ EQUALS :: b /\ ~ In EQUALS a
    /\ split_once EQUALS line = [a; b].
Proof.
  intros H. destruct (in_dec N.eq_dec EQUALS line) as [Hin|Hout].
  - apply first_occurrence in Hin as (a & b & -> & Ha).
    exists a, b; repeat split; trivial. now apply split_once_some.
  - apply malformed_iff in Hout. unfold malformed in Hout. congruence.
Qed.

(** ** The parser: the loop over the lines *)

Lemma parse_lines_wellformed (e : env) (fp : file) (wt : bool)
    (line : pystr) (rest : list pystr) (d : odict pystr) (st : state) :
  malformedb line = false ->
  parse_lines e fp wt (line :: rest) d st
  = parse_lines e fp wt rest (od_set (key_of line) (val_of line) d) st.
Proof.
  intros H. destruct (wellformed_split _ H) as (a & b & _ & _ & Hs).
  simpl. unfold key_of, val_of. rewrite Hs. reflexivity.
Qed.

Lemma parse_lines_malformed (e : env) (fp : file) (wt : bool)
    (line : pystr) (rest : list pystr) (d : odict pystr) (st : state) :
  closed fp = true ->
  malformedb line = true ->
  parse_lines e fp wt (line :: rest) d st
  = (Raise (ValueError (if wt then ClosedFile else Unpack 1)),
     state_after_failure e (name fp) wt line st).
Proof.
  intros Hc H. apply malformed_iff in H.
  simpl. rewrite (split_once_none _ _ H).
  unfold state_after_failure.
  destruct wt; [|reflexivity].
  unfold catch, bind, unpack2, map, raise, logging, write_tempfile,
    named_temporary_file, seek0, bind.
  simpl. rewrite Hc. reflexivity.
Qed.

Lemma parse_lines_all_wellformed (e : env) (fp : file) (wt : bool)
    (lines : list pystr) (d : odict pystr) (st : state) :
  Forall (fun l => malformedb l = false) lines ->
  parse_lines e fp wt lines d st = (Ok (assign_all lines d), st).
Proof.
  intros H; revert d; induction H as [|l ls Hl _ IH]; intros d.
  - reflexivity.
  - rewrite (parse_lines_wellformed _ _ _ _ _ _ _ Hl). apply IH.
Qed.



Lemma parse_idxstatus_run (e : env) (path : pystr) (mtime : Z)
    (text : pystr) (wt : bool) (st : state) :
  fs e path = Some (File mtime true text) ->
  parse_idxstatus e path wt st
  = match parse_lines e (mkFile path text true) wt (logical_lines text) []
            st with
    | (Ok idxstatus, st') =>
        match od_get (str "phase") idxstatus with
        | Some _ => (Ok idxstatus, st')
        | None => (Raise (KeyError (str "phase")), st')
        end
    | (Raise ex, st') => (Raise ex, st')
    end.
Proof.
  intros Hfs. unfold parse_idxstatus, py_open. rewrite Hfs.
  unfold bind at 1, ret at 1. unfold bind at 1, read, closed, ret at 1.
  unfold close, name, content. unfold bind at 1.
  destruct (parse_lines _ _ _ _ _ _) as [[idxstatus|ex] st']; [|reflexivity].
  unfold bind, od_lookup.
  destruct (od_get (str "phase") idxstatus); reflexivity.
Qed.

Lemma parse_idxstatus_cases (e : env) (path : pystr) (wt : bool)
    (st : state) :
  (exists errno, parse_idxstatus e path wt st = (Raise (OSError errno), st))
  \/ exists mtime text, fs e path = Some (File mtime true text).
Proof.
  unfold parse_idxstatus, py_open.
  destruct (fs e path) as [[mtime [|] text|mtime]|].
  - right; now exists mtime, text.
  - left; now exists EACCES.
  - left; now exists EISDIR.
  - left; now exists (absent_errno e path).
Qed.

Lemma not_malformed (l : pystr) : ~ malformed l <-> malformedb l = false.
Proof. unfold malformed; apply not_true_iff_false. Qed.

Lemma Forall_not_malformed (lines : list pystr) :
  Forall (fun l => ~ malformed l) lines <->
  Forall (fun l => malformedb l = false) lines.
Proof.
  split; intros H; eapply Forall_impl; try exact H;
    intros l Hl; now apply not_malformed.
Qed.

Lemma assign_all_get_other (k : pystr) (lines : list pystr)
    (d : odict pystr) :
  Forall (fun l => key_of l <> k) lines ->
  od_get k (assign_all lines d) = od_get k d.
Proof.
  intros H; revert d; induction H as [|l ls Hl _ IH]; intros d.
  - reflexivity.
  - unfold assign_all; simpl. fold (assign_all ls).
    rewrite IH. apply od_get_set_other. congruence.
Qed.



(** C3 (the code at the failing input): the file [phase = 0] parses to the
    mapping [{phase: "0"}] and no temporary file is created; the value
    ["0"] is compared with the integers [0], [4], [5] and equals none. *)
Theorem parse_idxstatus_phase0_no_copy :
  parse_idxstatus (progress_only (str "phase = 0" ++ [LF]))
    (str "/r/idxstatus.txt") true idle
  = (Ok [(str "phase", str "0")], idle)
  /\ py_in (PyStr (str "0")) [PyInt 0; PyInt 4; PyInt 5] = false.
Proof. split; reflexivity. Qed.

(** C4 (the code at the failing input): on the file [abc] the parse with
    the debug copy raises the helper's error about the closed file, and
    the temporary file stays empty; without the copy it raises the error
    of the line. *)
Theorem parse_idxstatus_copy_masks_error :
  parse_idxstatus (progress_only (str "abc" ++ [LF]))
    (str "/r/idxstatus.txt") true idle
  = (Raise (ValueError ClosedFile),
     mkState
       [(ERROR, str "Cannot parse line: abc" ++ [LF]);
        (INFO, str "Copying /r/idxstatus.txt to /tmp/idxstatusk3x9" ++ [LF])]
       [(str "/tmp/idxstatusk3x9", [])])
  /\ parse_idxstatus (progress_only (str "abc" ++ [LF]))
       (str "/r/idxstatus.txt") false idle
     = (Raise (ValueError (Unpack 1)),
        mkState [(ERROR, str "Cannot parse line: abc" ++ [LF])] []).
Proof. split; reflexivity. Qed.

(** C10: a parse that returns a mapping returns one with the key [phase];
    and when every logical line is well formed and none assigns [phase],
    the parse fails with the key error on [phase]. *)
Theorem parse_idxstatus_requires_phase
    (e : env) (path : pystr) (wt : bool) (st : state) :
  (forall m st',
      parse_idxstatus e path wt st = (Ok m, st') ->
      od_mem (str "phase") m = true)
  /\ (forall mtime text,
         fs e path = Some (File mtime true text) ->
         Forall (fun l => ~ malformed l) (logical_lines text) ->
         Forall (fun l => key_of l <> str "phase") (logical_lines text) ->
         parse_idxstatus e path wt st
         = (Raise (KeyError (str "phase")), st)).
Proof.
  split.
  - intros m st' H.
    destruct (parse_idxstatus_cases e path wt st)
      as [[errno He]|(mtime & text & Hfs)]; [congruence|].
    rewrite (parse_idxstatus_run _ _ _ _ _ _ Hfs) in H.
    destruct (parse_lines _ _ _ _ _ _) as [[d|ex] st1]; [|discriminate].
    unfold od_mem.
    destruct (od_get (str "phase") d) eqn:Hp; [|discriminate].
    injection H as <- _. now rewrite Hp.
  - intros mtime text Hfs Hwf Hkeys.
    rewrite (parse_idxstatus_run _ _ _ _ _ _ Hfs).
    apply Forall_not_malformed in Hwf.
    rewrite (parse_lines_all_wellformed _ _ _ _ _ _ Hwf).
    now rewrite (assign_all_get_other _ _ _ Hkeys).
Qed.

Lemma parse_idxstatus_requires_phase_witness :
  od_mem (str "phase") [(str "phase", str "2")] = true
  /\ parse_idxstatus
       (progress_only (str "totfiles = 1" ++ [BACKSLASH; LF] ++ str "00"
                         ++ [LF]))
       (str "/r/idxstatus.txt") true idle
     = (Raise (KeyError (str "phase")), idle).
Proof.
  split.
  - apply (proj1 (parse_idxstatus_requires_phase
                    (progress_only (str "phase = 2" ++ [LF]))
                    (str "/r/idxstatus.txt") true idle)
             [(str "phase", str "2")] idle).
    reflexivity.
  - apply (proj2 (parse_idxstatus_requires_phase
                    (progress_only (str "totfiles = 1" ++ [BACKSLASH; LF]
                                      ++ str "00" ++ [LF]))
                    (str "/r/idxstatus.txt") true idle) 0%Z _ eq_refl).
    + repeat constructor; discriminate.
    + repeat constructor; discriminate.
Defined.

(** ** The liveness prober *)

Lemma py_int_nonempty (e : env) (content : pystr) (pid : Z) :
  py_int e content = Some pid -> pystr_eqb content [] = false.
Proof. destruct content; [discriminate|reflexivity]. Qed.

Lemma recollindex_running_run (e : env) (path : pystr) (mtime : Z)
    (body : pystr) (st : state) :
  fs e path = Some (File mtime true body) ->
  recollindex_running e path st
  = if pystr_eqb body [] then (Ok false, st)
    else match py_int e body with
         | None =>
             (Raise (ValueError (InvalidInt body)),
              add_log (ERROR, str "Not a valid process ID: " ++ body
                                ++ [LF]) st)
         | Some pid =>
             match kill e pid with
             | Alive => (Ok true, st)
             | ProbeOSError n =>
                 if Z.eqb n ESRCH
                 then (Ok false, add_log (stale_pid_warning path body) st)
                 else (Raise (OSError n), st)
             | ProbeOverflow => (Raise OverflowError, st)
             end
         end.
Proof.
  intros Hfs. unfold recollindex_running, py_open. rewrite Hfs.
  unfold bind at 1, catch at 1, ret at 1.
  unfold bind at 1, read, closed, ret at 1. unfold content.
  destruct (pystr_eqb body []); [reflexivity|].
  unfold bind at 1, catch at 1, int_of.
  destruct (py_int e body) as [pid|]; [|reflexivity].
  unfold ret at 1, catch, bind, os_kill0.
  destruct (kill e pid) as [|n|]; try reflexivity.
  unfold raise. destruct (Z.eqb n ESRCH); reflexivity.
Qed.

(** C7: an empty pid file gives [False] and logs nothing; a pid file whose
    content [int()] reads as a number for which the probe reports no such
    process gives [False] as well, with one warning logged and no error
    raised. *)
Theorem recollindex_running_false
    (e : env) (path : pystr) (mtime : Z) (content : pystr) (st : state) :
  fs e path = Some (File mtime true content) ->
  (content = [] -> recollindex_running e path st = (Ok false, st))
  /\ (forall pid,
         py_int e content = Some pid ->
         kill e pid = ProbeOSError ESRCH ->
         recollindex_running e path st
         = (Ok false, add_log (stale_pid_warning path content) st)).
Proof.
  intros Hfs; rewrite (recollindex_running_run _ _ _ _ _ Hfs); split.
  - intros ->; reflexivity.
  - intros pid Hint Hkill.
    rewrite (py_int_nonempty _ _ _ Hint), Hint, Hkill. reflexivity.
Qed.

Lemma recollindex_running_false_witness :
  recollindex_running
    (machine [(str "/r/index.pid", File 7 true [])] (fun _ => Alive))
    (str "/r/index.pid") idle
  = (Ok false, idle)
  /\ recollindex_running
       (machine [(str "/r/index.pid", File 7 true (str "4242" ++ [LF]))]
          (fun _ => ProbeOSError ESRCH))
       (str "/r/index.pid") idle
     = (Ok false,
        add_log (stale_pid_warning (str "/r/index.pid") (str "4242" ++ [LF]))
          idle).
Proof.
  split.
  - apply (proj1 (recollindex_running_false
                    (machine [(str "/r/index.pid", File 7 true [])]
                       (fun _ => Alive))
                    (str "/r/index.pid") 7 [] idle eq_refl)).
    reflexivity.
  - apply (proj2 (recollindex_running_false
                    (machine
                       [(str "/r/index.pid",
                         File 7 true (str "4242" ++ [LF]))]
                       (fun _ => ProbeOSError ESRCH))
                    (str "/r/index.pid") 7 (str "4242" ++ [LF]) idle eq_refl)
             4242%Z); reflexivity.
Defined.

(** C8 (as stated, refuted): the pid file [-5] is not empty and does not
    hold a positive integer, yet [int()] reads it as [-5]; the probe is
    asked about it and, finding nothing, makes the result [False]: no
    [ValueError] is raised. *)
Lemma recollindex_running_negative_pid :
  py_int
    (machine [(str "/r/index.pid", File 7 true (str "-5"))]
       (fun _ => ProbeOSError ESRCH))
    (str "-5") = Some (-5)%Z
  /\ recollindex_running
       (machine [(str "/r/index.pid", File 7 true (str "-5"))]
          (fun _ => ProbeOSError ESRCH))
       (str "/r/index.pid") idle
     = (Ok false,
        add_log (stale_pid_warning (str "/r/index.pid") (str "-5")) idle).
Proof. split; reflexivity. Qed.

(** C8 (amended): for a readable, non-empty pid file the prober fails with
    [ValueError], after logging that the content is no valid process ID,
    exactly when [int()] rejects the content; content that [int()] reads,
    with a sign or not, goes to the probe. *)
Theorem recollindex_running_malformed
    (e : env) (path : pystr) (mtime : Z) (content : pystr) (st : state) :
  fs e path = Some (File mtime true content) ->
  content <> [] ->
  (py_int e content = None ->
   recollindex_running e path st
   = (Raise (ValueError (InvalidInt content)),
      add_log (ERROR, str "Not a valid process ID: " ++ content ++ [LF]) st))
  /\ (forall why st',
         recollindex_running e path st = (Raise (ValueError why), st') ->
         py_int e content = None).
Proof.
  intros Hfs Hne; rewrite (recollindex_running_run _ _ _ _ _ Hfs).
  apply pystr_eqb_neq in Hne; rewrite Hne; split.
  - intros ->; reflexivity.
  - intros why st' H. destruct (py_int e content) as [pid|]; [|reflexivity].
    destruct (kill e pid) as [|n|]; try discriminate.
    destruct (Z.eqb n ESRCH); discriminate.
Qed.

Lemma recollindex_running_malformed_witness :
  recollindex_running
    (machine [(str "/r/index.pid", File 7 true (str "abc"))]
       (fun _ => Alive))
    (str "/r/index.pid") idle
  = (Raise (ValueError (InvalidInt (str "abc"))),
     add_log (ERROR, str "Not a valid process ID: abc" ++ [LF]) idle).
Proof.
  apply (proj1 (recollindex_running_malformed
                  (machine [(str "/r/index.pid", File 7 true (str "abc"))]
                     (fun _ => Alive))
                  (str "/r/index.pid") 7 (str "abc") idle eq_refl
                  ltac:(discriminate))).
  reflexivity.
Defined.

(** ** The composer *)

Lemma running_time_fails_iff (e : env) (p : pystr) (n : nat) (st : state) :
  running_time e p n st
  = (Raise (UnboundLocalError (str "date_recollindex_started")), st)
  <-> isfile e p = false.
Proof.
  unfold running_time, isfile, getmtime, datetime_fromtimestamp, bind.
  destruct (fs e p) as [[t r c|t]|]; simpl; split; trivial;
    try discriminate.
  destruct (fromtimestamp e t); discriminate.
Qed.

Lemma since_last_run_fails_iff (e : env) (p : pystr) (n : nat) (st : state) :
  since_last_run e p n st
  = (Raise (UnboundLocalError (str "date_recollindex_last_started")), st)
  <-> isfile e p = false.
Proof.
  unfold since_last_run, isfile, getmtime, datetime_fromtimestamp, bind.
  destruct (fs e p) as [[t r c|t]|]; simpl; split; trivial;
    try discriminate.
  destruct (fromtimestamp e t); discriminate.
Qed.

Lemma timing_unbound (e : env) (p : pystr) (n : nat) (st : state)
    (name : pystr) :
  isfile e p = true ->
  running_time e p n st <> (Raise (UnboundLocalError name), st)
  /\ since_last_run e p n st <> (Raise (UnboundLocalError name), st).
Proof.
  unfold running_time, since_last_run, isfile, getmtime,
    datetime_fromtimestamp, bind.
  destruct (fs e p) as [[t r c|t]|]; try discriminate.
  intros _; simpl. destruct (fromtimestamp e t); split; discriminate.
Qed.

(** C9: when the prober answers [True] and there is no lock file
    [xapiandb/flintlock], and when it answers [False] and there is no
    [idxstatus.txt], the composer aborts with the error of the
    elapsed-time computation instead of returning a report; each of the
    two computations raises that error, the use of a local variable never
    assigned, exactly when its file is absent. *)
Theorem recollstatus_missing_file
    (str_timedelta ctime : Z -> pystr) (e : env) (recoll_dir : pystr)
    (ticks : nat) (st st1 : state) :
  (recollindex_running e (path_join recoll_dir (str "index.pid")) st
   = (Ok true, st1) ->
   isfile e (path_join (path_join recoll_dir (str "xapiandb"))
               (str "flintlock")) = false ->
   recollstatus str_timedelta ctime e recoll_dir ticks st
   = (Raise (UnboundLocalError (str "date_recollindex_started")), st1))
  /\ (recollindex_running e (path_join recoll_dir (str "index.pid")) st
      = (Ok false, st1) ->
      isfile e (path_join recoll_dir (str "idxstatus.txt")) = false ->
      recollstatus str_timedelta ctime e recoll_dir ticks st
      = (Raise (UnboundLocalError (str "date_recollindex_last_started")),
         st1))
  /\ (forall p n s,
         (exists name,
             running_time e p n s = (Raise (UnboundLocalError name), s))
         <-> isfile e p = false)
  /\ (forall p n s,
         (exists name,
             since_last_run e p n s = (Raise (UnboundLocalError name), s))
         <-> isfile e p = false).
Proof.
  split; [|split; [|split]].
  - intros Hrun Hlock. unfold recollstatus.
    unfold bind at 1. rewrite Hrun. unfold bind at 1 2.
    apply (running_time_fails_iff e _ ticks st1) in Hlock.
    now rewrite Hlock.
  - intros Hrun Hfile. unfold recollstatus.
    unfold bind at 1. rewrite Hrun. unfold bind at 1 2.
    apply (since_last_run_fails_iff e _ ticks st1) in Hfile.
    now rewrite Hfile.
  - intros p n s; split.
    + intros [name H]. destruct (isfile e p) eqn:E; [|reflexivity].
      now destruct (proj1 (timing_unbound e p n s name E)).
    + intros H. eexists. now apply running_time_fails_iff.
  - intros p n s; split.
    + intros [name H]. destruct (isfile e p) eqn:E; [|reflexivity].
      now destruct (proj2 (timing_unbound e p n s name E)).
    + intros H. eexists. now apply since_last_run_fails_iff.
Qed.

Lemma recollstatus_missing_file_witness :
  recollstatus (fun _ => []) (fun _ => [])
    (machine [(str "/r/index.pid", File 7 true (str "4242"))]
       (fun _ => Alive))
    (str "/r") 0 idle
  = (Raise (UnboundLocalError (str "date_recollindex_started")), idle)
  /\ recollstatus (fun _ => []) (fun _ => [])
       (machine [(str "/r/index.pid", File 7 true [])] (fun _ => Alive))
       (str "/r") 0 idle
     = (Raise (UnboundLocalError (str "date_recollindex_last_started")),
        idle).
Proof.
  split.
  - apply (proj1 (recollstatus_missing_file (fun _ => []) (fun _ => [])
                    (machine [(str "/r/index.pid", File 7 true (str "4242"))]
                       (fun _ => Alive))
                    (str "/r") 0 idle idle)); reflexivity.
  - apply (proj1 (proj2 (recollstatus_missing_file (fun _ => [])
                           (fun _ => [])
                           (machine [(str "/r/index.pid", File 7 true [])]
                              (fun _ => Alive))
                           (str "/r") 0 idle idle))); reflexivity.
Defined.

(** ** The parser: continuation lines and trimming *)

Lemma replace_keep (c d : N) (r : pystr) :
  c <> BACKSLASH \/ d <> LF ->
  replace [BACKSLASH; LF] [] (c :: d :: r)
  = c :: replace [BACKSLASH; LF] [] (d :: r).
Proof.
  intros H. unfold replace. cbn [replace_from is_prefix].
  destruct (N.eqb BACKSLASH c) eqn:Ec; [|reflexivity].
  destruct (N.eqb LF d) eqn:Ed; [|reflexivity].
  apply N.eqb_eq in Ec, Ed. destruct H as [H|H]; congruence.
Qed.

Lemma replace_drop (r : pystr) :
  replace [BACKSLASH; LF] [] (BACKSLASH :: LF :: r)
  = replace [BACKSLASH; LF] [] r.
Proof. reflexivity. Qed.

Lemma replace_lf (r : pystr) :
  replace [BACKSLASH; LF] [] (LF :: r)
  = LF :: replace [BACKSLASH; LF] [] r.
Proof. destruct r; reflexivity. Qed.

Lemma replace_line (l t : pystr) :
  (forall c, In c l -> c <> LF) ->
  replace [BACKSLASH; LF] [] (l ++ LF :: t)
  = match chop_backslash l with
    | Some l0 => l0 ++ replace [BACKSLASH; LF] [] t
    | None => l ++ LF :: replace [BACKSLASH; LF] [] t
    end.
Proof.
  induction l as [|c l IH]; intros Hl.
  - apply replace_lf.
  - destruct l as [|d l].
    + simpl app. simpl chop_backslash.
      destruct (N.eqb c BACKSLASH) eqn:E.
      * apply N.eqb_eq in E; subst c. apply replace_drop.
      * apply N.eqb_neq in E.
        rewrite replace_keep by (now left). now rewrite replace_lf.
    + assert (Hd : d <> LF) by (apply Hl; right; now left).
      change (chop_backslash (c :: d :: l))
        with (option_map (cons c) (chop_backslash (d :: l))).
      change ((c :: d :: l) ++ LF :: t) with (c :: d :: (l ++ LF :: t)).
      rewrite replace_keep by (now right).
      change (d :: l ++ LF :: t) with ((d :: l) ++ LF :: t).
      rewrite IH by (intros x Hx; apply Hl; now right).
      destruct (chop_backslash (d :: l)); reflexivity.
Qed.

Lemma chop_backslash_some (l l0 : pystr) :
  chop_backslash l = Some l0 -> l = l0 ++ [BACKSLASH].
Proof.
  revert l0; induction l as [|c l IH]; intros l0 H; [discriminate|].
  destruct l as [|d l].
  - simpl in H. destruct (N.eqb c BACKSLASH) eqn:E; [|discriminate].
    apply N.eqb_eq in E; subst c. now injection H as <-.
  - change (chop_backslash (c :: d :: l))
      with (option_map (cons c) (chop_backslash (d :: l))) in H.
    destruct (chop_backslash (d :: l)) as [l1|]; [|discriminate].
    injection H as <-. now rewrite (IH l1 eq_refl).
Qed.

Lemma splitlines_from_app (cur l s : pystr) :
  no_break l ->
  splitlines_from cur (l ++ s) = splitlines_from (rev l ++ cur) s.
Proof.
  revert cur; induction l as [|c l IH]; intros cur Hl; [reflexivity|].
  simpl. rewrite (Hl c) by now left.
  rewrite IH by (intros x Hx; apply Hl; now right).
  now rewrite <- app_assoc.
Qed.

Lemma splitlines_from_lf (cur s : pystr) :
  splitlines_from cur (LF :: s) = rev cur :: splitlines_from [] s.
Proof. destruct s; reflexivity. Qed.

Lemma glue_nil (ls : list pystr) : glue [] ls = ls.
Proof. destruct ls; reflexivity. Qed.

Lemma glue_glue (p q : pystr) (ls : list pystr) :
  glue p (glue q ls) = glue (p ++ q) ls.
Proof.
  destruct ls as [|x xs]; simpl.
  - destruct q as [|c q]; simpl.
    + now rewrite app_nil_r.
    + destruct p; reflexivity.
  - now rewrite app_assoc.
Qed.

Lemma splitlines_from_end (cur : pystr) :
  splitlines_from cur [] = glue (rev cur) [].
Proof.
  destruct cur as [|c cur]; [reflexivity|]. simpl.
  destruct (rev cur ++ [c]) eqn:E; [|reflexivity].
  now apply app_eq_nil in E as [_ E].
Qed.

Lemma replace_no_lf (s : pystr) :
  (forall c, In c s -> c <> LF) -> replace [BACKSLASH; LF] [] s = s.
Proof.
  induction s as [|c s IH]; intros H; [reflexivity|].
  destruct s as [|d s].
  - unfold replace. cbn [replace_from is_prefix].
    destruct (N.eqb BACKSLASH c); reflexivity.
  - rewrite replace_keep by (right; apply H; right; now left).
    rewrite IH; [reflexivity|]. intros x Hx; apply H; now right.
Qed.

Lemma no_break_no_lf (l : pystr) : no_break l -> forall c, In c l -> c <> LF.
Proof. intros H c Hc ->. specialize (H _ Hc). discriminate. Qed.

Lemma continued_lines (ls : list pystr) (last cur : pystr) :
  Forall no_break ls ->
  no_break last ->
  splitlines_from cur
    (replace [BACKSLASH; LF] [] (text_of_lines ls ++ last))
  = glue (rev cur) (joined ls last).
Proof.
  intros H Hlast; revert cur; induction H as [|l ls Hl _ IH]; intros cur.
  - change (text_of_lines [] ++ last) with last.
    change (joined [] last) with (glue last []).
    rewrite replace_no_lf by now apply no_break_no_lf.
    rewrite <- (app_nil_r last) at 1.
    rewrite splitlines_from_app by exact Hlast.
    rewrite splitlines_from_end, rev_app_distr, rev_involutive.
    now rewrite glue_glue.
  - unfold text_of_lines; simpl List.concat. fold (text_of_lines ls).
    rewrite <- !app_assoc. simpl app.
    rewrite replace_line by now apply no_break_no_lf.
    simpl joined.
    destruct (chop_backslash l) as [l0|] eqn:E.
    + apply chop_backslash_some in E; subst l.
      rewrite splitlines_from_app.
      2:{ intros c Hc. apply Hl, in_or_app. now left. }
      rewrite IH, rev_app_distr, rev_involutive, glue_glue. reflexivity.
    + rewrite splitlines_from_app by exact Hl.
      rewrite splitlines_from_lf, (IH []), glue_nil.
      now rewrite rev_app_distr, rev_involutive.
Qed.

Lemma split_lf_cons (s : pystr) : exists h t, split_lf s = h :: t.
Proof.
  destruct s as [|c r]; simpl; [now exists [], []|].
  destruct (N.eqb c LF); [now eexists; eexists|].
  destruct (split_lf r); now eexists; eexists.
Qed.

Lemma split_lf_join (s : pystr) : join [LF] (split_lf s) = s.
Proof.
  induction s as [|c r IH]; [reflexivity|]. simpl.
  destruct (split_lf_cons r) as (h & t & E). rewrite E in IH |- *.
  destruct (N.eqb c LF) eqn:Ec.
  - apply N.eqb_eq in Ec; subst c. rewrite join_cons2, IH. reflexivity.
  - destruct t as [|x t].
    + simpl in IH |- *. now rewrite IH.
    + rewrite join_cons2 in IH |- *. rewrite <- IH. reflexivity.
Qed.

Lemma split_lf_free (s : pystr) :
  Forall (fun l => forall c, In c l -> c <> LF) (split_lf s).
Proof.
  induction s as [|c r IH]; simpl.
  - constructor; [intros c []|constructor].
  - destruct (N.eqb c LF) eqn:Ec.
    + constructor; [intros x []|exact IH].
    + destruct (split_lf r) as [|h t].
      * constructor; [|constructor].
        intros x [<-|[]]. now apply N.eqb_neq.
      * inversion IH as [|? ? Hh Ht]; subst. constructor; [|exact Ht].
        intros x [<-|Hx]; [now apply N.eqb_neq|now apply Hh].
Qed.

Lemma replace_unwrap (ls : list pystr) :
  Forall (fun l => forall c, In c l -> c <> LF) ls ->
  replace [BACKSLASH; LF] [] (join [LF] ls) = unwrap ls.
Proof.
  induction 1 as [|l ls Hl Hls IH]; [reflexivity|].
  destruct ls as [|x ls].
  - simpl. now apply replace_no_lf.
  - rewrite join_cons2.
    change (l ++ [LF] ++ join [LF] (x :: ls))
      with (l ++ LF :: join [LF] (x :: ls)).
    rewrite replace_line by exact Hl. rewrite IH.
    change (unwrap (l :: x :: ls))
      with (match chop_backslash l with
            | Some l0 => l0 ++ unwrap (x :: ls)
            | None => l ++ [LF] ++ unwrap (x :: ls)
            end).
    now destruct (chop_backslash l).
Qed.

Lemma lstrip_head (s : pystr) (c : N) (r : pystr) :
  lstrip s = c :: r -> is_space c = false.
Proof.
  induction s as [|x s IH]; simpl; [discriminate|].
  destruct (is_space x) eqn:E; [exact IH|].
  intros H; injection H as <- _; exact E.
Qed.

Lemma lstrip_suffix (s : pystr) : exists pre, s = pre ++ lstrip s.
Proof.
  induction s as [|x s [pre IH]]; [now exists []|]. simpl.
  destruct (is_space x).
  - exists (x :: pre). simpl. now rewrite <- IH.
  - now exists [].
Qed.

Lemma rstrip_prefix (s : pystr) : exists post, s = rstrip s ++ post.
Proof.
  unfold rstrip. destruct (lstrip_suffix (rev s)) as [pre H].
  exists (rev pre). rewrite <- rev_app_distr, <- H.
  now rewrite rev_involutive.
Qed.

Lemma strip_trimmed (s : pystr) : trimmed (strip s).
Proof.
  unfold trimmed, strip; split.
  - intros c r H. destruct (rstrip_prefix (lstrip s)) as [post Hp].
    rewrite H in Hp. apply (lstrip_head s c ((r ++ post))). exact Hp.
  - intros c r H. unfold rstrip in H.
    apply (f_equal (@rev N)) in H.
    rewrite rev_involutive, rev_app_distr in H. simpl in H.
    now apply lstrip_head in H.
Qed.

Lemma lstrip_spaces (s : pystr) :
  exists pre, s = pre ++ lstrip s /\ all_space pre.
Proof.
  induction s as [|x s (pre & IH & Hpre)].
  - exists []; split; [reflexivity|constructor].
  - simpl. destruct (is_space x) eqn:E.
    + exists (x :: pre); split; [simpl; now rewrite <- IH|].
      now constructor.
    + exists []; split; [reflexivity|constructor].
Qed.

Lemma rstrip_spaces (s : pystr) :
  exists post, s = rstrip s ++ post /\ all_space post.
Proof.
  unfold rstrip. destruct (lstrip_spaces (rev s)) as (pre & H & Hpre).
  exists (rev pre); split.
  - rewrite <- rev_app_distr, <- H. now rewrite rev_involutive.
  - now apply Forall_rev.
Qed.

Lemma strip_stripped (s : pystr) : stripped_of s (strip s).
Proof.
  destruct (lstrip_spaces s) as (pre & Hs & Hpre).
  destruct (rstrip_spaces (lstrip s)) as (post & Ht & Hpost).
  exists pre, post; repeat split; trivial.
  - unfold strip. now rewrite <- Ht.
  - apply strip_trimmed.
  - apply strip_trimmed.
Qed.

(** C5 (as stated, refuted): parsing the text of the example returns no
    mapping; the line loop is followed by the lookup of [phase], which
    raises [KeyError]. *)
Lemma parse_idxstatus_totfiles_alone :
  parse_idxstatus
    (progress_only (str "totfiles = 1" ++ [BACKSLASH; LF] ++ str "00" ++ [LF]))
    (str "/r/idxstatus.txt") true idle
  = (Raise (KeyError (str "phase")), idle).
Proof. reflexivity. Qed.

(** C5 (amended): for every input text, a physical line (a piece of the
    text between line feeds) ending in a backslash is joined with the
    following line before the lines are split; where the physical lines
    hold no other line boundary, with or without a final line feed, the
    logical lines are the joined lines.  A line with an [=] assigns the
    text after the first [=] to the text before it, each without the
    whitespace around it and otherwise unchanged.  The line loop reads
    the text of the example as [{totfiles: "100"}], and with a [phase]
    line before it the parse returns [{phase: "2", totfiles: "100"}]. *)
Theorem parse_idxstatus_continuation
    (text : pystr) (ls : list pystr) (last a b : pystr) :
  Forall no_break ls ->
  no_break last ->
  ~ In EQUALS a ->
  (join [LF] (split_lf text) = text
   /\ Forall (fun l => ~ In LF l) (split_lf text)
   /\ logical_lines text = splitlines (unwrap (split_lf text)))
  /\ logical_lines (text_of_lines ls ++ last) = joined ls last
  /\ (forall e fp wt rest d st,
         parse_lines e fp wt ((a ++ EQUALS :: b) :: rest) d st
         = parse_lines e fp wt rest (od_set (strip a) (strip b) d) st)
  /\ stripped_of a (strip a)
  /\ stripped_of b (strip b)
  /\ (forall e fp wt st,
         parse_lines e fp wt
           (logical_lines
              (str "totfiles = 1" ++ [BACKSLASH; LF] ++ str "00" ++ [LF]))
           [] st
         = (Ok [(str "totfiles", str "100")], st))
  /\ parse_idxstatus
       (progress_only
          (str "phase = 2" ++ [LF] ++ str "totfiles = 1" ++ [BACKSLASH; LF]
             ++ str "00" ++ [LF]))
       (str "/r/idxstatus.txt") true idle
     = (Ok [(str "phase", str "2"); (str "totfiles", str "100")], idle).
Proof.
  intros Hls Hlast Ha.
  split; [split; [|split]|split; [|split; [|split; [|split; [|split]]]]].
  - apply split_lf_join.
  - eapply Forall_impl; [|apply split_lf_free].
    intros l Hl Hin. now apply (Hl LF).
  - unfold logical_lines.
    rewrite <- (split_lf_join text) at 1.
    now rewrite (replace_unwrap _ (split_lf_free text)).
  - unfold logical_lines, splitlines.
    rewrite (continued_lines ls last [] Hls Hlast). apply glue_nil.
  - intros e fp wt rest d st. simpl.
    rewrite (split_once_some EQUALS a b Ha). reflexivity.
  - apply strip_stripped.
  - apply strip_stripped.
  - reflexivity.
  - reflexivity.
Qed.

Lemma parse_idxstatus_continuation_witness :
  logical_lines (str "a = 1" ++ [BACKSLASH; LF] ++ str "00")
  = splitlines
      (unwrap (split_lf (str "a = 1" ++ [BACKSLASH; LF] ++ str "00")))
  /\ logical_lines
       (text_of_lines [str "totfiles = 1" ++ [BACKSLASH]; str "00"]
          ++ str "phase=2")
     = [str "totfiles = 100"; str "phase=2"]
  /\ stripped_of (str "  tot files ") (strip (str "  tot files "))
  /\ stripped_of (str " 100  ") (strip (str " 100  ")).
Proof.
  destruct (parse_idxstatus_continuation
              (str "a = 1" ++ [BACKSLASH; LF] ++ str "00")
              [str "totfiles = 1" ++ [BACKSLASH]; str "00"]
              (str "phase=2") (str "  tot files ") (str " 100  "))
    as ((_ & _ & Htext) & Hjoin & _ & Hk & Hv & _).
  - repeat constructor;
      intros c Hc; simpl in Hc;
      repeat (destruct Hc as [<-|Hc]; [reflexivity|]); destruct Hc.
  - intros c Hc; simpl in Hc;
      repeat (destruct Hc as [<-|Hc]; [reflexivity|]); destruct Hc.
  - simpl. intros H.
    repeat (destruct H as [H|H]; [discriminate H|]). exact H.
  - split; [exact Htext|]. split; [exact Hjoin|]. split; assumption.
Defined.

(** * Further properties of the script *)

(** ** The liveness prober, beyond the pid content *)



(** X2: on a readable pid file the prober answers [True] exactly when
    [int()] reads the content and the probe finds the process; it then
    logs nothing. *)
Theorem recollindex_running_true_iff
    (e : env) (path : pystr) (mtime : Z) (body : pystr) (st : state) :
  fs e path = Some (File mtime true body) ->
  (recollindex_running e path st = (Ok true, st)
   <-> exists pid, py_int e body = Some pid /\ kill e pid = Alive)
  /\ (forall st', recollindex_running e path st = (Ok true, st') -> st' = st).
Proof.
  intros Hfs; rewrite (recollindex_running_run _ _ _ _ _ Hfs).
  destruct (pystr_eqb body []) eqn:Eb.
  - apply pystr_eqb_eq in Eb; subst body. split; [split|].
    + discriminate.
    + intros (pid & Hint & _); discriminate.
    + discriminate.
  - destruct (py_int e body) as [pid|].
    + destruct (kill e pid) as [|n|] eqn:Ek.
      * split; [split|]; [intros _; now exists pid|reflexivity|].
        intros st' H; now injection H.
      * split; [split|].
        -- destruct (Z.eqb n ESRCH); discriminate.
        -- intros (pid' & Hint & Hk). injection Hint as <-. congruence.
        -- intros st'; destruct (Z.eqb n ESRCH); discriminate.
      * split; [split|]; try discriminate.
        intros (pid' & Hint & Hk). injection Hint as <-. congruence.
    + split; [split|]; try discriminate.
      intros (pid & Hint & _); discriminate.
Qed.

Lemma recollindex_running_true_iff_witness :
  recollindex_running
    (machine [(str "/r/index.pid", File 7 true (str "4242" ++ [LF]))]
       (fun pid => if Z.eqb pid 4242 then Alive else ProbeOSError ESRCH))
    (str "/r/index.pid") idle
  = (Ok true, idle).
Proof.
  apply (proj1 (recollindex_running_true_iff
                  (machine
                     [(str "/r/index.pid", File 7 true (str "4242" ++ [LF]))]
                     (fun pid => if Z.eqb pid 4242 then Alive
                                 else ProbeOSError ESRCH))
                  (str "/r/index.pid") 7 (str "4242" ++ [LF]) idle eq_refl)).
  exists 4242%Z; split; reflexivity.
Defined.

(** X3: a failure of the probe other than "no such process" (for instance
    a process of another user) is raised to the caller as it is, and
    nothing is logged. *)
Theorem recollindex_running_probe_error
    (e : env) (path : pystr) (mtime : Z) (body : pystr) (st : state)
    (pid errno : Z) :
  fs e path = Some (File mtime true body) ->
  py_int e body = Some pid ->
  kill e pid = ProbeOSError errno ->
  errno <> ESRCH ->
  recollindex_running e path st = (Raise (OSError errno), st).
Proof.
  intros Hfs Hint Hk Hne.
  rewrite (recollindex_running_run _ _ _ _ _ Hfs).
  rewrite (py_int_nonempty _ _ _ Hint), Hint, Hk.
  apply Z.eqb_neq in Hne. now rewrite Hne.
Qed.

Lemma recollindex_running_probe_error_witness :
  recollindex_running
    (machine [(str "/r/index.pid", File 7 true (str "1"))]
       (fun _ => ProbeOSError 1))
    (str "/r/index.pid") idle
  = (Raise (OSError 1), idle).
Proof.
  apply (recollindex_running_probe_error
           (machine [(str "/r/index.pid", File 7 true (str "1"))]
              (fun _ => ProbeOSError 1))
           (str "/r/index.pid") 7 (str "1") idle 1 1);
    [reflexivity|reflexivity|reflexivity|discriminate].
Defined.

(** ** Timestamps *)

(** X4: for [latest_query] a path that is no regular file is no error: it
    returns [None] with the instant it read from the clock and changes
    nothing; on a regular file it returns the local time of the
    modification time when the conversion gives one. *)
Theorem latest_query_absent
    (e : env) (path : pystr) (ticks : nat) (st : state) :
  (isfile e path = false ->
   latest_query e path ticks st
   = (Ok (None, clock e ticks, S ticks), st))
  /\ (forall t r c d,
         fs e path = Some (File t r c) ->
         fromtimestamp e t = Instant d ->
         latest_query e path ticks st
         = (Ok (Some d, clock e ticks, S ticks), st)).
Proof.
  unfold latest_query, isfile, getmtime, datetime_fromtimestamp, bind.
  split.
  - destruct (fs e path) as [[m r c|m]|]; try discriminate; reflexivity.
  - intros t r c d Hfs Hd. rewrite Hfs. simpl. now rewrite Hd.
Qed.

Lemma latest_query_absent_witness :
  latest_query (machine [] (fun _ => Alive)) (str "/r/history") 1 idle
  = (Ok (None, 110%Z, 2%nat), idle)
  /\ latest_query
       (machine [(str "/r/history", File 42 false [])] (fun _ => Alive))
       (str "/r/history") 1 idle
     = (Ok (Some 42%Z, 110%Z, 2%nat), idle).
Proof.
  split.
  - apply (proj1 (latest_query_absent (machine [] (fun _ => Alive))
                    (str "/r/history") 1 idle)).
    reflexivity.
  - apply (proj2 (latest_query_absent
                    (machine [(str "/r/history", File 42 false [])]
                       (fun _ => Alive))
                    (str "/r/history") 1 idle) 42%Z false [] 42%Z);
      reflexivity.
Defined.

(** ** The debug copy *)


(** ** The parser: what a successful parse returns *)

Lemma parse_lines_ok_inv (e : env) (fp : file) (wt : bool)
    (lines : list pystr) (d m : odict pystr) (st st' : state) :
  closed fp = true ->
  parse_lines e fp wt lines d st = (Ok m, st') ->
  Forall (fun l => malformedb l = false) lines
  /\ m = assign_all lines d /\ st' = st.
Proof.
  intros Hc; revert d; induction lines as [|l ls IH]; intros d H.
  - injection H as <- <-. repeat split; constructor.
  - destruct (malformedb l) eqn:E.
    + rewrite (parse_lines_malformed e fp wt l ls d st Hc E) in H.
      discriminate.
    + rewrite (parse_lines_wellformed e fp wt l ls d st E) in H.
      destruct (IH _ H) as (Hwf & Hm & Hst).
      repeat split; trivial. now constructor.
Qed.

Lemma parse_lines_outcome (e : env) (fp : file) (wt : bool)
    (lines : list pystr) (d : odict pystr) (st : state) :
  closed fp = true ->
  parse_lines e fp wt lines d st = (Ok (assign_all lines d), st)
  \/ exists line,
       In line lines
       /\ parse_lines e fp wt lines d st
          = (Raise (ValueError (if wt then ClosedFile else Unpack 1)),
             state_after_failure e (name fp) wt line st).
Proof.
  intros Hc; revert d; induction lines as [|l ls IH]; intros d.
  - now left.
  - destruct (malformedb l) eqn:E.
    + right; exists l; split; [now left|].
      now apply parse_lines_malformed.
    + rewrite (parse_lines_wellformed e fp wt l ls d st E).
      destruct (IH (od_set (key_of l) (val_of l) d))
        as [H|(line & Hin & H)].
      * now left.
      * right; exists line; split; [now right|exact H].
Qed.

Lemma parse_idxstatus_ok_inv (e : env) (path : pystr) (mtime : Z)
    (text : pystr) (wt : bool) (st st' : state) (m : odict pystr) :
  fs e path = Some (File mtime true text) ->
  parse_idxstatus e path wt st = (Ok m, st') ->
  Forall (fun l => malformedb l = false) (logical_lines text)
  /\ m = assign_all (logical_lines text) [] /\ st' = st.
Proof.
  intros Hfs H. rewrite (parse_idxstatus_run _ _ _ _ _ _ Hfs) in H.
  destruct (parse_lines _ _ _ _ _ _) as [[d|ex] st1] eqn:Hp; [|discriminate].
  apply parse_lines_ok_inv in Hp as (Hwf & Hd & Hst); [|reflexivity].
  destruct (od_get (str "phase") d); [|discriminate].
  injection H as <- <-. now repeat split.
Qed.

(** X6: a parse of a readable file returns a mapping exactly when every
    logical line is well formed and some line assigns [phase]; the mapping
    is then the result of the assignments of all lines in order, nothing
    is logged and no temporary file is created. *)
Theorem parse_idxstatus_ok_iff
    (e : env) (path : pystr) (mtime : Z) (text : pystr) (wt : bool)
    (st st' : state) (m : odict pystr) :
  fs e path = Some (File mtime true text) ->
  parse_idxstatus e path wt st = (Ok m, st')
  <-> (st' = st
       /\ Forall (fun l => ~ malformed l) (logical_lines text)
       /\ m = assign_all (logical_lines text) []
       /\ od_mem (str "phase") m = true).
Proof.
  intros Hfs; split.
  - intros H.
    destruct (parse_idxstatus_ok_inv _ _ _ _ _ _ _ _ Hfs H)
      as (Hwf & Hm & Hst).
    repeat split; trivial; [now apply Forall_not_malformed|].
    rewrite (parse_idxstatus_run _ _ _ _ _ _ Hfs) in H.
    rewrite (parse_lines_all_wellformed _ _ _ _ _ _ Hwf) in H.
    unfold od_mem. rewrite Hm.
    destruct (od_get (str "phase") (assign_all (logical_lines text) []));
      [reflexivity|discriminate].
  - intros (-> & Hwf & -> & Hphase).
    apply Forall_not_malformed in Hwf.
    rewrite (parse_idxstatus_run _ _ _ _ _ _ Hfs).
    rewrite (parse_lines_all_wellformed _ _ _ _ _ _ Hwf).
    unfold od_mem in Hphase.
    destruct (od_get (str "phase") (assign_all (logical_lines text) []));
      [reflexivity|discriminate].
Qed.

Lemma parse_idxstatus_ok_iff_witness :
  parse_idxstatus
    (progress_only (str "phase = 6" ++ [LF] ++ str "totfiles = 500" ++ [LF]))
    (str "/r/idxstatus.txt") true idle
  = (Ok [(str "phase", str "6"); (str "totfiles", str "500")], idle).
Proof.
  apply (proj2 (parse_idxstatus_ok_iff
                  (progress_only (str "phase = 6" ++ [LF]
                                    ++ str "totfiles = 500" ++ [LF]))
                  (str "/r/idxstatus.txt") 0 _ true idle idle
                  [(str "phase", str "6"); (str "totfiles", str "500")]
                  eq_refl)).
  split; [reflexivity|]. split; [|split; reflexivity].
  repeat constructor; discriminate.
Defined.

(** X7: whatever the file holds, a parse only adds to the log and to the
    temporary files; it creates at most one temporary file, none when no
    copy is asked for, and a file it creates is empty. *)
Theorem parse_idxstatus_footprint
    (e : env) (path : pystr) (wt : bool) (st : state) :
  exists records files,
    log (snd (parse_idxstatus e path wt st)) = log st ++ records
    /\ tmpfiles (snd (parse_idxstatus e path wt st)) = tmpfiles st ++ files
    /\ (List.length files <= 1)%nat
    /\ Forall (fun f => snd f = []) files
    /\ (wt = false -> files = []).
Proof.
  destruct (parse_idxstatus_cases e path wt st)
    as [[errno He]|(mtime & text & Hfs)].
  - rewrite He. exists [], []; simpl. rewrite !app_nil_r.
    repeat split; auto.
  - rewrite (parse_idxstatus_run _ _ _ _ _ _ Hfs).
    destruct (parse_lines_outcome e (mkFile path text true) wt
                (logical_lines text) [] st eq_refl)
      as [H|(line & _ & H)]; rewrite H.
    + exists [], [].
      destruct (od_get (str "phase") (assign_all (logical_lines text) []));
        simpl; rewrite !app_nil_r; repeat split; auto.
    + unfold state_after_failure; destruct wt; simpl.
      * eexists [_; _], [_]; simpl. rewrite <- app_assoc.
        repeat split; auto. discriminate.
      * eexists [_], []; simpl. rewrite app_nil_r. repeat split; auto.
Qed.

Lemma assign_all_get (k : pystr) (lines : list pystr) (d : odict pystr) :
  od_get k (assign_all lines d)
  = match fold_left
            (fun acc l =>
               if pystr_eqb k (key_of l) then Some (val_of l) else acc)
            lines None with
    | Some v => Some v
    | None => od_get k d
    end.
Proof.
  revert d; induction lines as [|l ls IH] using rev_ind; intros d.
  - reflexivity.
  - unfold assign_all. rewrite !fold_left_app. simpl.
    fold (assign_all ls d).
    destruct (pystr_eqb k (key_of l)) eqn:E.
    + apply pystr_eqb_eq in E; subst k. apply od_get_set_same.
    + apply pystr_eqb_neq in E. rewrite od_get_set_other by exact E.
      apply IH.
Qed.

(** X8: in the mapping a parse returns, a key has the value of the last
    line that assigns it, and a key no line assigns is absent. *)
Theorem parse_idxstatus_last_wins
    (e : env) (path : pystr) (mtime : Z) (text : pystr) (wt : bool)
    (st st' : state) (m : odict pystr) (k : pystr) :
  fs e path = Some (File mtime true text) ->
  parse_idxstatus e path wt st = (Ok m, st') ->
  od_get k m = last_val k (logical_lines text).
Proof.
  intros Hfs H.
  destruct (parse_idxstatus_ok_inv _ _ _ _ _ _ _ _ Hfs H) as (_ & -> & _).
  rewrite assign_all_get. unfold last_val.
  now destruct (fold_left _ _ _).
Qed.

Lemma parse_idxstatus_last_wins_witness :
  od_get (str "totfiles")
    [(str "totfiles", str "7"); (str "phase", str "2")]
  = last_val (str "totfiles")
      (logical_lines
         (str "totfiles = 5" ++ [LF] ++ str "phase = 2" ++ [LF]
            ++ str "totfiles = 7" ++ [LF])).
Proof.
  apply (parse_idxstatus_last_wins
           (progress_only
              (str "totfiles = 5" ++ [LF] ++ str "phase = 2" ++ [LF]
                 ++ str "totfiles = 7" ++ [LF]))
           (str "/r/idxstatus.txt") 0 _ true idle idle
           [(str "totfiles", str "7"); (str "phase", str "2")]
           (str "totfiles") eq_refl).
  reflexivity.
Defined.

(** ** The parser: keys of the returned mapping *)

Lemma existsb_eqb_In (k : pystr) (l : list pystr) :
  existsb (pystr_eqb k) l = true <-> In k l.
Proof.
  rewrite existsb_exists; split.
  - intros (x & Hin & E). apply pystr_eqb_eq in E. now subst x.
  - intros H; exists k; split; [exact H|apply pystr_eqb_refl].
Qed.

Lemma od_set_keys (k v : pystr) (d : odict pystr) :
  map fst (od_set k v d)
  = if existsb (pystr_eqb k) (map fst d) then map fst d
    else map fst d ++ [k].
Proof.
  induction d as [|[k' v'] d IH]; [reflexivity|]. simpl.
  destruct (pystr_eqb k k'); simpl; [reflexivity|].
  rewrite IH. now destruct (existsb (pystr_eqb k) (map fst d)).
Qed.

Lemma assign_all_keys (lines : list pystr) (d : odict pystr) :
  map fst (assign_all lines d)
  = fold_left
      (fun acc k => if existsb (pystr_eqb k) acc then acc else acc ++ [k])
      (map key_of lines) (map fst d).
Proof.
  revert d; induction lines as [|l ls IH]; intros d; [reflexivity|].
  unfold assign_all; simpl. fold (assign_all ls).
  now rewrite IH, od_set_keys.
Qed.

Lemma NoDup_snoc (l : list pystr) (k : pystr) :
  NoDup l -> ~ In k l -> NoDup (l ++ [k]).
Proof.
  induction 1 as [|x l Hx Hl IH]; intros Hk; simpl.
  - constructor; [intros []|constructor].
  - constructor.
    + rewrite in_app_iff; intros [H|[H|[]]]; [now apply Hx|].
      subst x; apply Hk; now left.
    + apply IH; intros H; apply Hk; now right.
Qed.

Lemma first_occurrences_NoDup (keys acc : list pystr) :
  NoDup acc ->
  NoDup
    (fold_left
       (fun acc k => if existsb (pystr_eqb k) acc then acc else acc ++ [k])
       keys acc).
Proof.
  revert acc; induction keys as [|k ks IH]; intros acc Hacc; [exact Hacc|].
  simpl. apply IH.
  destruct (existsb (pystr_eqb k) acc) eqn:E; [exact Hacc|].
  apply NoDup_snoc; [exact Hacc|].
  intros Hin; apply existsb_eqb_In in Hin; congruence.
Qed.

(** X9: the keys of the mapping a parse returns are the keys of the lines
    in the order of their first occurrence, each once: assigning a key
    again does not move it. *)
Theorem parse_idxstatus_key_order
    (e : env) (path : pystr) (mtime : Z) (text : pystr) (wt : bool)
    (st st' : state) (m : odict pystr) :
  fs e path = Some (File mtime true text) ->
  parse_idxstatus e path wt st = (Ok m, st') ->
  map fst m = first_occurrences (map key_of (logical_lines text))
  /\ NoDup (map fst m).
Proof.
  intros Hfs H.
  destruct (parse_idxstatus_ok_inv _ _ _ _ _ _ _ _ Hfs H) as (_ & -> & _).
  rewrite assign_all_keys. split; [reflexivity|].
  apply first_occurrences_NoDup; constructor.
Qed.

Lemma parse_idxstatus_key_order_witness :
  map fst [(str "totfiles", str "7"); (str "phase", str "2")]
  = first_occurrences
      (map key_of
         (logical_lines
            (str "totfiles = 5" ++ [LF] ++ str "phase = 2" ++ [LF]
               ++ str "totfiles = 7" ++ [LF])))
  /\ NoDup (map fst [(str "totfiles", str "7"); (str "phase", str "2")]).
Proof.
  apply (parse_idxstatus_key_order
           (progress_only
              (str "totfiles = 5" ++ [LF] ++ str "phase = 2" ++ [LF]
                 ++ str "totfiles = 7" ++ [LF]))
           (str "/r/idxstatus.txt") 0 _ true idle idle
           [(str "totfiles", str "7"); (str "phase", str "2")] eq_refl).
  reflexivity.
Defined.

(** ** The parser: shape of keys and values *)

Lemma splitlines_from_no_break (n : nat) :
  forall (s cur : pystr),
    (List.length s <= n)%nat ->
    no_break cur ->
    Forall no_break (splitlines_from cur s).
Proof.
  induction n as [|n IH]; intros s cur Hn Hcur.
  - destruct s; [|simpl in Hn; lia]. simpl.
    destruct cur as [|c cur]; constructor; [|constructor].
    intros x Hx. apply Hcur. now apply in_rev in Hx.
  - destruct s as [|c r].
    + simpl. destruct cur as [|c cur]; constructor; [|constructor].
      intros x Hx. apply Hcur. now apply in_rev in Hx.
    + simpl in Hn. simpl. destruct (is_linebreak c) eqn:E.
      * constructor.
        -- intros x Hx. apply Hcur. now apply in_rev in Hx.
        -- assert (Hnil : no_break []) by (intros x []).
           destruct r as [|d r'].
           ++ apply IH; [simpl; lia|exact Hnil].
           ++ destruct (N.eqb c CR && N.eqb d LF).
              ** apply IH; [simpl in Hn; lia|exact Hnil].
              ** apply IH; [lia|exact Hnil].
      * apply IH; [lia|].
        intros x [<-|Hx]; [exact E|now apply Hcur].
Qed.

Lemma logical_lines_no_break (text : pystr) :
  Forall no_break (logical_lines text).
Proof.
  unfold logical_lines, splitlines.
  apply (splitlines_from_no_break _ _ [] (le_n _)). intros x [].
Qed.

Lemma strip_incl (s : pystr) (c : N) : In c (strip s) -> In c s.
Proof.
  unfold strip; intros H.
  destruct (lstrip_suffix s) as [pre Hs].
  destruct (rstrip_prefix (lstrip s)) as [post Ht].
  rewrite Hs, Ht, !in_app_iff. tauto.
Qed.

Lemma od_set_clean (k v : pystr) (d : odict pystr) :
  clean_key k -> clean_val v ->
  Forall (fun kv => clean_key (fst kv) /\ clean_val (snd kv)) d ->
  Forall (fun kv => clean_key (fst kv) /\ clean_val (snd kv)) (od_set k v d).
Proof.
  intros Hk Hv; induction 1 as [|[k' v'] d [Hk' Hv'] Hd IH]; simpl.
  - constructor; [now split|constructor].
  - destruct (pystr_eqb k k'); constructor; simpl; auto.
Qed.

Lemma wellformed_clean (line : pystr) :
  no_break line -> malformedb line = false ->
  clean_key (key_of line) /\ clean_val (val_of line).
Proof.
  intros Hnb Hwf.
  destruct (wellformed_split _ Hwf) as (a & b & -> & Ha & Hs).
  unfold key_of, val_of; rewrite Hs; simpl.
  split; [split; [|split]|split].
  - apply strip_trimmed.
  - intros H; now apply strip_incl in H.
  - intros c Hc. apply strip_incl in Hc. apply Hnb, in_or_app. now left.
  - apply strip_trimmed.
  - intros c Hc. apply strip_incl in Hc.
    apply Hnb, in_or_app. right; now right.
Qed.

Lemma assign_all_clean (lines : list pystr) (d : odict pystr) :
  Forall no_break lines ->
  Forall (fun l => malformedb l = false) lines ->
  Forall (fun kv => clean_key (fst kv) /\ clean_val (snd kv)) d ->
  Forall (fun kv => clean_key (fst kv) /\ clean_val (snd kv))
    (assign_all lines d).
Proof.
  intros Hnb; revert d; induction Hnb as [|l ls Hl _ IH]; intros d Hwf Hd.
  - exact Hd.
  - inversion Hwf as [|? ? Hwl Hwls]; subst.
    unfold assign_all; simpl. fold (assign_all ls).
    destruct (wellformed_clean l Hl Hwl) as [Hk Hv].
    apply IH; [exact Hwls|]. now apply od_set_clean.
Qed.

(** X10: every key and value of the mapping a parse returns is free of
    surrounding whitespace and of line boundaries, and no key contains
    an [=]. *)
Theorem parse_idxstatus_clean
    (e : env) (path : pystr) (wt : bool) (st st' : state)
    (m : odict pystr) :
  parse_idxstatus e path wt st = (Ok m, st') ->
  Forall (fun kv => clean_key (fst kv) /\ clean_val (snd kv)) m.
Proof.
  intros H.
  destruct (parse_idxstatus_cases e path wt st)
    as [[errno He]|(mtime & text & Hfs)]; [congruence|].
  destruct (parse_idxstatus_ok_inv _ _ _ _ _ _ _ _ Hfs H) as (Hwf & -> & _).
  apply assign_all_clean; [apply logical_lines_no_break|exact Hwf|].
  constructor.
Qed.

Lemma parse_idxstatus_clean_witness :
  Forall (fun kv => clean_key (fst kv) /\ clean_val (snd kv))
    [(str "a b", str "c = d"); (str "phase", str "2")].
Proof.
  apply (parse_idxstatus_clean
           (progress_only
              (str "  a b  =  c = d  " ++ [LF] ++ str "phase = 2" ++ [LF]))
           (str "/r/idxstatus.txt") true idle idle).
  reflexivity.
Defined.

(** ** The formatter: what it reads and how it fails *)

Lemma format_lines_total (idxstatus : odict pystr) (st : state) :
  format_lines idxstatus st
  = match od_get (str "phase") idxstatus with
    | None => (Raise (KeyError (str "phase")), st)
    | Some p =>
        match od_get p DbIxStatus with
        | None => (Raise (KeyError p), st)
        | Some n =>
            if pystr_eqb p (str "1")
            then match od_get (str "fn") idxstatus with
                 | Some fn =>
                     (Ok ((header_line p n :: optional_lines idxstatus)
                            ++ [str "Indexing this file: " ++ fn]), st)
                 | None => (Raise (KeyError (str "fn")), st)
                 end
            else (Ok ((header_line p n :: optional_lines idxstatus)
                        ++ [str "Not indexing files now."]), st)
        end
    end.
Proof.
  destruct (od_get (str "phase") idxstatus) as [p|] eqn:Hp.
  - destruct (od_get p DbIxStatus) as [n|] eqn:Hn.
    + now apply format_lines_run.
    + unfold format_lines, bind, od_lookup.
      rewrite Hp; unfold ret at 1. now rewrite Hn.
  - unfold format_lines, bind, od_lookup. now rewrite Hp.
Qed.

(** X11: the formatter reads only the keys [phase], [docsdone],
    [filesdone], [filerrors], [totfiles], [dbtotdocs] and [fn]: two
    mappings that agree on them, whatever else they hold and in whatever
    order, are formatted alike. *)
Theorem format_idxstatus_shown_keys
    (idxstatus idxstatus' : odict pystr) (st : state) :
  (forall k, In k shown_keys ->
             od_get k idxstatus = od_get k idxstatus') ->
  format_idxstatus idxstatus st = format_idxstatus idxstatus' st.
Proof.
  intros H. unfold format_idxstatus, bind.
  rewrite !format_lines_total.
  assert (Ho : optional_lines idxstatus = optional_lines idxstatus').
  { unfold optional_lines, field_line.
    rewrite !(H (str "docsdone")), !(H (str "filesdone")),
      !(H (str "filerrors")), !(H (str "totfiles")),
      !(H (str "dbtotdocs")) by (simpl; tauto).
    reflexivity. }
  rewrite Ho, (H (str "phase")), (H (str "fn")) by (simpl; tauto).
  reflexivity.
Qed.

Lemma format_idxstatus_shown_keys_witness :
  format_idxstatus
    [(str "phase", str "2"); (str "totfiles", str "5")] idle
  = format_idxstatus
      [(str "extra", str "x"); (str "totfiles", str "5");
       (str "phase", str "2")] idle.
Proof.
  apply (format_idxstatus_shown_keys
           [(str "phase", str "2"); (str "totfiles", str "5")]
           [(str "extra", str "x"); (str "totfiles", str "5");
            (str "phase", str "2")] idle).
  intros k Hk. simpl in Hk.
  repeat (destruct Hk as [<-|Hk]; [reflexivity|]). destruct Hk.
Defined.

(** X12: the formatter changes nothing; it fails with the key error on
    [phase] for a mapping without that key, and with the key error on
    [fn] for a mapping in phase ["1"] without a file name. *)
Theorem format_idxstatus_key_errors (idxstatus : odict pystr) (st : state) :
  snd (format_idxstatus idxstatus st) = st
  /\ (od_get (str "phase") idxstatus = None ->
      format_idxstatus idxstatus st = (Raise (KeyError (str "phase")), st))
  /\ (od_get (str "phase") idxstatus = Some (str "1") ->
      od_get (str "fn") idxstatus = None ->
      format_idxstatus idxstatus st = (Raise (KeyError (str "fn")), st)).
Proof.
  unfold format_idxstatus, bind. rewrite format_lines_total.
  split; [|split].
  - destruct (od_get (str "phase") idxstatus) as [p|]; [|reflexivity].
    destruct (od_get p DbIxStatus); [|reflexivity].
    destruct (pystr_eqb p (str "1")); [|reflexivity].
    destruct (od_get (str "fn") idxstatus); reflexivity.
  - intros ->; reflexivity.
  - intros -> ->; reflexivity.
Qed.

Lemma format_idxstatus_key_errors_witness :
  format_idxstatus [(str "totfiles", str "5")] idle
  = (Raise (KeyError (str "phase")), idle)
  /\ format_idxstatus [(str "phase", str "1"); (str "totfiles", str "5")]
       idle
     = (Raise (KeyError (str "fn")), idle).
Proof.
  split.
  - apply (proj1 (proj2 (format_idxstatus_key_errors
                           [(str "totfiles", str "5")] idle))).
    reflexivity.
  - apply (proj2 (proj2 (format_idxstatus_key_errors
                           [(str "phase", str "1");
                            (str "totfiles", str "5")] idle)));
      reflexivity.
Defined.

(** ** Parsing, then formatting *)









(** ** The composer: the reports *)

Lemma latest_query_lines (str_timedelta ctime : Z -> pystr) (e : env)
    (recoll_dir : pystr) (ticks : nat) (status : list pystr) (st : state) :
  (' (date_of_last_query, date_now, _) <-
     latest_query e (path_join recoll_dir (str "history")) ticks ;;
   match date_of_last_query with
   | Some t =>
       ret (join [LF]
              (status
                 ++ [str "recoll database last queried on: " ++ ctime t]
                 ++ [str " which was " ++ str_timedelta (date_now - t)%Z
                       ++ str " ago."]))
   | None => ret (join [LF] status)
   end) st
  = match query_lines str_timedelta ctime e recoll_dir ticks with
    | Ok lines => (Ok (join [LF] (status ++ lines)), st)
    | Raise ex => (Raise ex, st)
    end.
Proof.
  unfold latest_query, isfile, getmtime, datetime_fromtimestamp,
    query_lines, bind, ret, raise.
  destruct (fs e (path_join recoll_dir (str "history"))) as [[t r c|t]|];
    cbv beta iota; rewrite ?app_nil_r; try reflexivity.
  destruct (fromtimestamp e t); reflexivity.
Qed.

(** X14: when the prober answers [False] and [idxstatus.txt] is a regular
    file whose modification time converts to a local time, the report is
    "recollindex is not running", that time and the time from it to the
    first reading of the clock, followed by the lines about the last
    query, which use the second reading of the clock; an error of the
    conversion of the history file's time ends the composer.  The content
    of [idxstatus.txt] is not read. *)
Theorem recollstatus_not_running
    (str_timedelta ctime : Z -> pystr) (e : env) (recoll_dir : pystr)
    (ticks : nat) (st st1 : state) (t : Z) (r : bool) (c : pystr) (d : Z) :
  recollindex_running e (path_join recoll_dir (str "index.pid")) st
  = (Ok false, st1) ->
  fs e (path_join recoll_dir (str "idxstatus.txt")) = Some (File t r c) ->
  fromtimestamp e t = Instant d ->
  recollstatus str_timedelta ctime e recoll_dir ticks st
  = match query_lines str_timedelta ctime e recoll_dir (S ticks) with
    | Ok lines =>
        (Ok (join [LF]
               ([str "recollindex is not running";
                 str " recollindex was last started on " ++ ctime d;
                 str " time since recollindex last started: "
                   ++ str_timedelta (clock e ticks - d)%Z]
                  ++ lines)), st1)
    | Raise ex => (Raise ex, st1)
    end.
Proof.
  intros Hrun Hfs Hd. unfold recollstatus.
  unfold bind at 1. rewrite Hrun.
  unfold bind at 1. unfold bind at 1.
  unfold since_last_run, isfile, getmtime, datetime_fromtimestamp.
  rewrite Hfs. unfold bind at 1, ret at 1. rewrite Hd.
  unfold bind at 1, ret at 1 2 3.
  apply latest_query_lines.
Qed.

Lemma recollstatus_not_running_witness :
  recollstatus (fun _ => str "0:01:33") (fun _ => str "Thu Jan  1 1970")
    (machine [(str "/r/index.pid", File 7 true []);
              (str "/r/idxstatus.txt", File 7 false (str "junk"))]
       (fun _ => Alive))
    (str "/r") 0 idle
  = (Ok (str "recollindex is not running" ++ [LF]
           ++ str " recollindex was last started on Thu Jan  1 1970" ++ [LF]
           ++ str " time since recollindex last started: 0:01:33"), idle).
Proof.
  apply (recollstatus_not_running (fun _ => str "0:01:33")
           (fun _ => str "Thu Jan  1 1970")
           (machine [(str "/r/index.pid", File 7 true []);
                     (str "/r/idxstatus.txt", File 7 false (str "junk"))]
              (fun _ => Alive))
           (str "/r") 0 idle idle 7 false (str "junk") 7);
    reflexivity.
Defined.

(** X15: when the prober answers [True], the lock file is a regular file
    whose modification time converts to a local time, and the progress
    file parses and formats, the report is "recollindex is running", the
    time from that local time to the first reading of the clock, the
    formatted progress, and the lines about the last query, which use the
    second reading of the clock; an error of the conversion of the
    history file's time ends the composer. *)
Theorem recollstatus_running
    (str_timedelta ctime : Z -> pystr) (e : env) (recoll_dir : pystr)
    (ticks : nat) (st st1 st2 st3 : state) (t : Z) (r : bool) (c : pystr)
    (d : Z) (m : odict pystr) (report : pystr) :
  recollindex_running e (path_join recoll_dir (str "index.pid")) st
  = (Ok true, st1) ->
  fs e (path_join (path_join recoll_dir (str "xapiandb")) (str "flintlock"))
  = Some (File t r c) ->
  fromtimestamp e t = Instant d ->
  parse_idxstatus e (path_join recoll_dir (str "idxstatus.txt")) true st1
  = (Ok m, st2) ->
  format_idxstatus m st2 = (Ok report, st3) ->
  recollstatus str_timedelta ctime e recoll_dir ticks st
  = match query_lines str_timedelta ctime e recoll_dir (S ticks) with
    | Ok lines =>
        (Ok (join [LF]
               ([str "recollindex is running";
                 str " recollindex has been running for "
                   ++ str_timedelta (clock e ticks - d)%Z;
                 report]
                  ++ lines)), st3)
    | Raise ex => (Raise ex, st3)
    end.
Proof.
  intros Hrun Hfs Hd Hparse Hfmt. unfold recollstatus.
  unfold bind at 1. rewrite Hrun.
  unfold bind at 1. unfold bind at 1.
  unfold running_time, isfile, getmtime, datetime_fromtimestamp.
  rewrite Hfs. unfold bind at 1, ret at 1. rewrite Hd.
  unfold bind at 1, ret at 1 2.
  unfold bind at 1. rewrite Hparse.
  unfold bind at 1. rewrite Hfmt. unfold ret at 1.
  apply latest_query_lines.
Qed.

Lemma recollstatus_running_witness :
  recollstatus (fun _ => str "0:01:33") (fun _ => str "Thu Jan  1 1970")
    (machine [(str "/r/index.pid", File 7 true (str "4242"));
              (str "/r/xapiandb/flintlock", File 7 true []);
              (str "/r/idxstatus.txt",
               File 50 true (str "phase = 2" ++ [LF]))]
       (fun _ => Alive))
    (str "/r") 0 idle
  = (Ok (str "recollindex is running" ++ [LF]
           ++ str " recollindex has been running for 0:01:33" ++ [LF]
           ++ str "DbIxStatus is 2: DBIXS_PURGE" ++ [LF]
           ++ str "Not indexing files now."), idle).
Proof.
  apply (recollstatus_running (fun _ => str "0:01:33")
           (fun _ => str "Thu Jan  1 1970")
           (machine [(str "/r/index.pid", File 7 true (str "4242"));
                     (str "/r/xapiandb/flintlock", File 7 true []);
                     (str "/r/idxstatus.txt",
                      File 50 true (str "phase = 2" ++ [LF]))]
              (fun _ => Alive))
           (str "/r") 0 idle idle idle idle 7 true [] 7
           [(str "phase", str "2")]
           (str "DbIxStatus is 2: DBIXS_PURGE" ++ [LF]
              ++ str "Not indexing files now."));
    reflexivity.
Defined.

(** X16: an error of the prober ends the composer with that same error;
    so does, once the running time has been computed, an error of the
    parse or of the formatter: no partial report is returned. *)
Theorem recollstatus_aborts
    (str_timedelta ctime : Z -> pystr) (e : env) (recoll_dir : pystr)
    (ticks : nat) (st st1 : state) :
  (forall ex,
      recollindex_running e (path_join recoll_dir (str "index.pid")) st
      = (Raise ex, st1) ->
      recollstatus str_timedelta ctime e recoll_dir ticks st
      = (Raise ex, st1))
  /\ (forall t r c d,
         recollindex_running e (path_join recoll_dir (str "index.pid")) st
         = (Ok true, st1) ->
         fs e (path_join (path_join recoll_dir (str "xapiandb"))
                 (str "flintlock")) = Some (File t r c) ->
         fromtimestamp e t = Instant d ->
         (forall ex st2,
             parse_idxstatus e (path_join recoll_dir (str "idxstatus.txt"))
               true st1 = (Raise ex, st2) ->
             recollstatus str_timedelta ctime e recoll_dir ticks st
             = (Raise ex, st2))
         /\ (forall m st2 ex st3,
                parse_idxstatus e
                  (path_join recoll_dir (str "idxstatus.txt")) true st1
                = (Ok m, st2) ->
                format_idxstatus m st2 = (Raise ex, st3) ->
                recollstatus str_timedelta ctime e recoll_dir ticks st
                = (Raise ex, st3))).
Proof.
  split.
  - intros ex Hrun. unfold recollstatus. unfold bind at 1. now rewrite Hrun.
  - intros t r c d Hrun Hfs Hd.
    split.
    + intros ex st2 Hp. unfold recollstatus.
      unfold bind at 1. rewrite Hrun.
      unfold bind at 1. unfold bind at 1.
      unfold running_time, isfile, getmtime, datetime_fromtimestamp.
      rewrite Hfs. unfold bind at 1, ret at 1. rewrite Hd.
      unfold bind at 1, ret at 1 2.
      unfold bind at 1. now rewrite Hp.
    + intros m st2 ex st3 Hp Hf. unfold recollstatus.
      unfold bind at 1. rewrite Hrun.
      unfold bind at 1. unfold bind at 1.
      unfold running_time, isfile, getmtime, datetime_fromtimestamp.
      rewrite Hfs. unfold bind at 1, ret at 1. rewrite Hd.
      unfold bind at 1, ret at 1 2.
      unfold bind at 1. rewrite Hp.
      unfold bind at 1. now rewrite Hf.
Qed.

Lemma recollstatus_aborts_witness :
  recollstatus (fun _ => []) (fun _ => [])
    (machine [(str "/r/index.pid", File 7 true (str "abc"))]
       (fun _ => Alive))
    (str "/r") 0 idle
  = (Raise (ValueError (InvalidInt (str "abc"))),
     add_log (ERROR, str "Not a valid process ID: abc" ++ [LF]) idle)
  /\ recollstatus (fun _ => []) (fun _ => [])
       (machine [(str "/r/index.pid", File 7 true (str "4242"));
                 (str "/r/xapiandb/flintlock", File 7 true []);
                 (str "/r/idxstatus.txt",
                  File 50 true (str "phase = 2" ++ [LF] ++ str "oops"))]
          (fun _ => Alive))
       (str "/r") 0 idle
     = (Raise (ValueError ClosedFile),
        state_after_failure
          (machine [(str "/r/index.pid", File 7 true (str "4242"));
                    (str "/r/xapiandb/flintlock", File 7 true []);
                    (str "/r/idxstatus.txt",
                     File 50 true (str "phase = 2" ++ [LF] ++ str "oops"))]
             (fun _ => Alive))
          (str "/r/idxstatus.txt") true (str "oops") idle)
  /\ recollstatus (fun _ => []) (fun _ => [])
       (machine [(str "/r/index.pid", File 7 true (str "4242"));
                 (str "/r/xapiandb/flintlock", File 7 true []);
                 (str "/r/idxstatus.txt",
                  File 50 true (str "phase = 9" ++ [LF]))]
          (fun _ => Alive))
       (str "/r") 0 idle
     = (Raise (KeyError (str "9")), idle).
Proof.
  split; [|split].
  - apply (proj1 (recollstatus_aborts (fun _ => []) (fun _ => [])
                    (machine [(str "/r/index.pid", File 7 true (str "abc"))]
                       (fun _ => Alive))
                    (str "/r") 0 idle
                    (add_log
                       (ERROR, str "Not a valid process ID: abc" ++ [LF])
                       idle))).
    reflexivity.
  - apply (proj1 (proj2 (recollstatus_aborts (fun _ => []) (fun _ => [])
                           (machine
                              [(str "/r/index.pid",
                                File 7 true (str "4242"));
                               (str "/r/xapiandb/flintlock", File 7 true []);
                               (str "/r/idxstatus.txt",
                                File 50 true
                                  (str "phase = 2" ++ [LF] ++ str "oops"))]
                              (fun _ => Alive))
                           (str "/r") 0 idle idle)
                    7%Z true [] 7%Z eq_refl eq_refl eq_refl));
      reflexivity.
  - apply (proj2 (proj2 (recollstatus_aborts (fun _ => []) (fun _ => [])
                           (machine
                              [(str "/r/index.pid",
                                File 7 true (str "4242"));
                               (str "/r/xapiandb/flintlock", File 7 true []);
                               (str "/r/idxstatus.txt",
                                File 50 true (str "phase = 9" ++ [LF]))]
                              (fun _ => Alive))
                           (str "/r") 0 idle idle)
                    7%Z true [] 7%Z eq_refl eq_refl eq_refl)
             [(str "phase", str "9")] idle);
      reflexivity.
Defined.
